(** * AOT Inductor intermediate-value debug printer

    A shallow embedding of [torch/_inductor/codegen/debug_utils.py]: the
    debug level resolver and the [DebugPrinterManager] context manager
    that brackets a kernel launch with generated save and print lines.

    Python strings are modelled as [string] (characters are code points
    below 256), the process environment as a [gmap string string], the
    code buffer [V.graph.wrapper_code] as the list of lines written so
    far, and the kernel-name registry [V.graph.all_codegen_kernel_names]
    as a [gset string].  Code that can raise runs in a state-and-error
    monad over the graph being generated: the writes performed before an
    exception stay in the graph. *)

From Stdlib Require Import Ascii String.
From stdpp Require Import base decidable option list gmap strings.

(** ** Python string primitives used by the module *)

Module PyStr.

Definition code (c : ascii) : nat := nat_of_ascii c.

(** [str.isspace] on one character below 256. *)
Definition isspace (c : ascii) : bool :=
  let n := code c in
  ((9 <=? n) && (n <=? 13)) || ((28 <=? n) && (n <=? 32))
  || (n =? 133) || (n =? 160).

(** Characters that [str.lower] maps 32 code points up: A-Z and the
    upper-case letters of Latin-1 (0xC0-0xDE without the times sign). *)
Definition isupper (c : ascii) : bool :=
  let n := code c in
  ((65 <=? n) && (n <=? 90))
  || ((192 <=? n) && (n <=? 222) && negb (n =? 215)).

Definition lower_char (c : ascii) : ascii :=
  if isupper c then ascii_of_nat (code c + 32) else c.

(** [s.lower()] *)
Fixpoint lower (s : string) : string :=
  match s with
  | EmptyString => EmptyString
  | String c rest => String (lower_char c) (lower rest)
  end.

(** [s.lstrip()], [s.rstrip()] and [s.strip()] with no argument. *)
Fixpoint lstrip (s : string) : string :=
  match s with
  | EmptyString => EmptyString
  | String c rest => if isspace c then lstrip rest else s
  end.

Fixpoint rstrip (s : string) : string :=
  match s with
  | EmptyString => EmptyString
  | String c rest =>
      match rstrip rest with
      | EmptyString => if isspace c then EmptyString else String c EmptyString
      | kept => String c kept
      end
  end.

Definition strip (s : string) : string := rstrip (lstrip s).

(** [s.split(sep)] for a one-character separator: never empty, an
    empty field between two adjacent separators. *)
Fixpoint split (sep : ascii) (s : string) : list string :=
  match s with
  | EmptyString => [EmptyString]
  | String c rest =>
      if Ascii.eqb c sep then EmptyString :: split sep rest
      else match split sep rest with
           | [] => [String c EmptyString]
           | field :: fields => String c field :: fields
           end
  end.

(** [s.startswith(head)] *)
Fixpoint startswith (head s : string) : bool :=
  match head with
  | EmptyString => true
  | String a head' =>
      match s with
      | EmptyString => false
      | String b s' => Ascii.eqb a b && startswith head' s'
      end
  end.

(** The double-quote character of the generated C++ lines. *)
Definition dquote : string := String (ascii_of_nat 34) EmptyString.

(** Two strings spell the same text up to letter case. *)
Definition caseless_eq (a b : string) : Prop := lower a = lower b.

(** Letter-case variation, character by character: each character is
    kept or replaced by its other-case form. *)
Definition same_letter (a b : ascii) : Prop :=
  a = b \/ (isupper a = true /\ b = lower_char a)
        \/ (isupper b = true /\ a = lower_char b).

Inductive case_variant : string -> string -> Prop :=
| cv_empty : case_variant EmptyString EmptyString
| cv_char a b s t :
    same_letter a b -> case_variant s t ->
    case_variant (String a s) (String b t).

End PyStr.

(** ** Debug levels and their resolution from the environment *)

Inductive IntermediateValueDebuggingLevel : Set :=
| OFF
| SAVE
| DEFAULT_PRINT
| FILTERED_PRINT.

#[global] Instance level_eq_dec : EqDecision IntermediateValueDebuggingLevel.
Proof. solve_decision. Defined.

(** The enum's integer values. *)
Definition level_value (l : IntermediateValueDebuggingLevel) : nat :=
  match l with
  | OFF => 0
  | SAVE => 1
  | DEFAULT_PRINT => 2
  | FILTERED_PRINT => 3
  end.

Definition PRINTER_ENV_VAR : string :=
  "AOT_INDUCTOR_DEBUG_INTERMEDIATE_VALUE_PRINTER".

(** [os.environ.get(name, fallback)] *)
Definition environ_get (environ : gmap string string)
    (name fallback : string) : string :=
  default fallback (environ !! name).

Definition aot_inductor_debug_intermediate_tensor_value_level
    (environ : gmap string string) : IntermediateValueDebuggingLevel :=
  if String.eqb (environ_get environ PRINTER_ENV_VAR "0") "1" then SAVE
  else if String.eqb (environ_get environ PRINTER_ENV_VAR "0") "2"
       then DEFAULT_PRINT
  else if String.eqb (environ_get environ PRINTER_ENV_VAR "0") "3"
       then FILTERED_PRINT
  else OFF.

(** ** Configuration, the graph under code generation, and effects *)

(** [config.aot_inductor]: the filter option is [None] when unset. *)
Record AotInductorConfig : Set := {
  filtered_kernel_names : option string
}.

(** The part of [torch._inductor.config] this module reads. *)
Record Config : Set := {
  abi_compatible : bool;
  aot_inductor : AotInductorConfig
}.

(** The part of [V.graph] this module reads and mutates. *)
Record Graph : Type := {
  cpp_wrapper : bool;
  wrapper_code : list string;
  all_codegen_kernel_names : gset string
}.

(** Exceptions this module can raise, and any other exception raised by
    the code a scope brackets. *)
Inductive Exception : Set :=
| AssertionError
| IndexError
| OtherException (name : string).

Inductive Outcome (A : Type) : Type :=
| Return (a : A)
| Raise (e : Exception).
Arguments Return {A} a.
Arguments Raise {A} e.

(** A computation over the graph: the final graph is kept also when the
    computation raises. *)
Definition M (A : Type) : Type := Graph -> Graph * Outcome A.

#[global] Instance M_ret : MRet M := fun A (a : A) g => (g, Return a).

#[global] Instance M_bind : MBind M := fun A B (k : A -> M B) (m : M A) g =>
  match m g with
  | (g', Return a) => k a g'
  | (g', Raise e) => (g', Raise e)
  end.

Definition raise {A} (e : Exception) : M A := fun g => (g, Raise e).

(** [V.graph.cpp_wrapper] *)
Definition get_cpp_wrapper : M bool := fun g => (g, Return (cpp_wrapper g)).

(** [V.graph.wrapper_code.writeline(line)] *)
Definition writeline (line : string) : M unit :=
  fun g =>
    ({| cpp_wrapper := cpp_wrapper g;
        wrapper_code := wrapper_code g ++ [line];
        all_codegen_kernel_names := all_codegen_kernel_names g |},
     Return tt).

(** [V.graph.all_codegen_kernel_names.add(name)] *)
Definition add_codegen_kernel_name (name : string) : M unit :=
  fun g =>
    ({| cpp_wrapper := cpp_wrapper g;
        wrapper_code := wrapper_code g;
        all_codegen_kernel_names := {[ name ]} ∪ all_codegen_kernel_names g |},
     Return tt).

(** [assert cond] *)
Definition assert (cond : bool) : M unit :=
  if cond then mret tt else raise AssertionError.

(** [for i, x in enumerate(xs): body], counting from [i]; a [continue]
    is a body that returns early. *)
Fixpoint for_enumerate {A} (body : nat -> A -> M unit) (i : nat)
    (xs : list A) : M unit :=
  match xs with
  | [] => mret tt
  | x :: rest => body i x ;; for_enumerate body (S i) rest
  end.

(** ** The manager *)

(** Modelled from the spec: the argument signature classes of
    [codegen/common.py] are not under src/; the module only asks whether
    a signature is an instance of [TensorArg] (the tensor kind of type
    tag), so one constructor stands for it and the others for the
    non-tensor kinds. *)
Inductive ArgSignature : Set :=
| TensorArg
| SizeArg
| WorkspaceArg.

(** [isinstance(sig, TensorArg)] *)
Definition isinstance_TensorArg (sig : ArgSignature) : bool :=
  match sig with
  | TensorArg => true
  | _ => false
  end.

(** The kernel descriptor is an opaque reference. *)
Inductive KernelRef : Set :=
| kernel_ref (id : nat).

Record DebugPrinterManager : Type := {
  enable_debug_printer : IntermediateValueDebuggingLevel;
  args_to_print_or_save : list string;
  kernel_name : string;
  arg_signatures : option (list ArgSignature);
  kernel : option KernelRef;
  filtered_kernel_names_to_print : list string
}.

(** [get_debug_filtered_kernel_names]: the cache decorator keeps the
    first result per instance; the constructor is the only caller, so
    the stored field is the memoized list. *)
Definition get_debug_filtered_kernel_names (config : Config) : list string :=
  match filtered_kernel_names (aot_inductor config) with
  | None => []
  | Some names => map PyStr.strip (PyStr.split "," (PyStr.lower names))
  end.

(** [DebugPrinterManager.__init__]: the level is resolved from the
    environment, whatever [enable_debug_printer_arg] is, and the stored
    signatures are [None], whatever [arg_signatures_arg] is. *)
Definition __init__ (environ : gmap string string) (config : Config)
    (enable_debug_printer_arg : IntermediateValueDebuggingLevel)
    (args_to_print_or_save_arg : option (list string))
    (kernel_name_arg : string) (kernel_arg : option KernelRef)
    (arg_signatures_arg : option (list ArgSignature)) : DebugPrinterManager :=
  {| enable_debug_printer :=
       aot_inductor_debug_intermediate_tensor_value_level environ;
     args_to_print_or_save := default [] args_to_print_or_save_arg;
     kernel_name := kernel_name_arg;
     arg_signatures := None;
     kernel := kernel_arg;
     filtered_kernel_names_to_print := get_debug_filtered_kernel_names config |}.

Definition set_printer_args (self : DebugPrinterManager)
    (args_to_print : list string) (kernel_name_arg : string)
    (arg_signatures_arg : option (list ArgSignature))
    (kernel_arg : option KernelRef) : DebugPrinterManager :=
  {| enable_debug_printer := enable_debug_printer self;
     args_to_print_or_save := args_to_print;
     kernel_name := kernel_name_arg;
     arg_signatures := arg_signatures_arg;
     kernel := kernel_arg;
     filtered_kernel_names_to_print := filtered_kernel_names_to_print self |}.

(** ** Generated lines *)

Definition launch_prefix (before_launch : bool) : string :=
  if before_launch then "before_launch" else "after_launch".

(** The formatted line of the ABI-compatible save call. *)
Definition save_line (arg prefix kernel_name_arg : string) : string :=
  "aoti_torch_save_tensor_handle(" +:+ arg +:+ ", "
  +:+ PyStr.dquote +:+ arg +:+ PyStr.dquote +:+ ", "
  +:+ PyStr.dquote +:+ prefix +:+ PyStr.dquote +:+ ", "
  +:+ PyStr.dquote +:+ kernel_name_arg +:+ PyStr.dquote +:+ ");".

(** The formatted line of the ABI-compatible print call. *)
Definition print_line_cpp (arg prefix kernel_name_arg : string) : string :=
  "aoti_torch_print_tensor_handle(" +:+ arg +:+ ", "
  +:+ PyStr.dquote +:+ prefix +:+ " - " +:+ kernel_name_arg +:+ " - " +:+ arg
  +:+ PyStr.dquote +:+ ");".

(** The formatted line of the Python wrapper's print statement. *)
Definition print_line_python (arg prefix kernel_name_arg : string) : string :=
  "print('" +:+ prefix +:+ " - " +:+ kernel_name_arg +:+ " - " +:+ arg
  +:+ "', " +:+ arg +:+ ")".

(** ** Code generation *)

(** [arg_signatures is not None and not isinstance(arg_signatures[i],
    TensorArg)]: indexing past the end of the list raises. *)
Definition is_not_tensor_arg (arg_signatures_arg : option (list ArgSignature))
    (i : nat) : M bool :=
  match arg_signatures_arg with
  | None => mret false
  | Some sigs =>
      match sigs !! i with
      | Some sig => mret (negb (isinstance_TensorArg sig))
      | None => raise IndexError
      end
  end.

(** One iteration of the loop of [codegen_intermediate_tensor_value_save]. *)
Definition save_iteration (config : Config) (kernel_name_arg : string)
    (before_launch : bool) (arg_signatures_arg : option (list ArgSignature))
    (i : nat) (arg : string) : M unit :=
  skip ← is_not_tensor_arg arg_signatures_arg i;
  if (skip : bool) then mret tt
  else
    cpp ← get_cpp_wrapper;
    if (cpp : bool) then
      if abi_compatible config then
        writeline (save_line arg (launch_prefix before_launch) kernel_name_arg)
      else mret tt
    else mret tt.

Definition codegen_intermediate_tensor_value_save (config : Config)
    (self : DebugPrinterManager) (args_to_save : list string)
    (kernel_name_arg : string) (before_launch : bool)
    (arg_signatures_arg : option (list ArgSignature)) : M unit :=
  for_enumerate
    (save_iteration config kernel_name_arg before_launch arg_signatures_arg)
    0 args_to_save.

(** One iteration of the loop of
    [codegen_intermediate_tensor_value_printer]. *)
Definition printer_iteration (config : Config) (self : DebugPrinterManager)
    (kernel_name_arg : string) (before_launch : bool)
    (arg_signatures_arg : option (list ArgSignature))
    (i : nat) (arg : string) : M unit :=
  skip ← is_not_tensor_arg arg_signatures_arg i;
  if (skip : bool) then mret tt
  else
    filtered_out ←
      (if decide (enable_debug_printer self = FILTERED_PRINT) then
         assert (0 <? length (filtered_kernel_names_to_print self));;
         mret (bool_decide
                 (kernel_name_arg ∉ filtered_kernel_names_to_print self))
       else mret false);
    if (filtered_out : bool) then mret tt
    else
      cpp ← get_cpp_wrapper;
      if (cpp : bool) then
        if abi_compatible config then
          writeline
            (print_line_cpp arg (launch_prefix before_launch) kernel_name_arg)
        else mret tt
      else
        writeline
          (print_line_python arg (launch_prefix before_launch) kernel_name_arg).

Definition codegen_intermediate_tensor_value_printer (config : Config)
    (self : DebugPrinterManager) (args_to_print : list string)
    (kernel_name_arg : string) (before_launch : bool)
    (arg_signatures_arg : option (list ArgSignature)) : M unit :=
  for_enumerate
    (printer_iteration config self kernel_name_arg before_launch
       arg_signatures_arg)
    0 args_to_print.

Definition __enter__ (config : Config) (self : DebugPrinterManager) : M unit :=
  if decide (enable_debug_printer self ≠ OFF) then
    add_codegen_kernel_name (kernel_name self);;
    codegen_intermediate_tensor_value_save config self
      (args_to_print_or_save self) (kernel_name self) true
      (arg_signatures self);;
    if decide (enable_debug_printer self ≠ SAVE) then
      codegen_intermediate_tensor_value_printer config self
        (args_to_print_or_save self) (kernel_name self) true
        (arg_signatures self)
    else mret tt
  else mret tt.

(** [__exit__] receives the exception that left the scope, if any, in
    its three positional parameters and never looks at them; it returns
    [None], so that exception is not swallowed. *)
Definition __exit__ (config : Config) (self : DebugPrinterManager)
    (exc : option Exception) : M unit :=
  if decide (enable_debug_printer self ≠ OFF) then
    codegen_intermediate_tensor_value_save config self
      (args_to_print_or_save self) (kernel_name self) false
      (arg_signatures self);;
    if decide (enable_debug_printer self ≠ SAVE) then
      codegen_intermediate_tensor_value_printer config self
        (args_to_print_or_save self) (kernel_name self) false
        (arg_signatures self)
    else mret tt
  else mret tt.

(** Modelled from the spec: the scope that brackets a kernel launch is
    opened by the wrapper code generators, which are not under src/.
    The spec asks for guaranteed-cleanup semantics: entry, then the
    bracketed code, then the release action also when the bracketed code
    fails, the failure still propagating.  As for any scoped
    acquisition, a failed entry opens no scope, so nothing is released. *)
Definition with_manager {A} (config : Config) (self : DebugPrinterManager)
    (body : M A) : M A :=
  fun g =>
    match __enter__ config self g with
    | (g1, Raise e) => (g1, Raise e)
    | (g1, Return _) =>
        match body g1 with
        | (g2, Return a) =>
            match __exit__ config self None g2 with
            | (g3, Return _) => (g3, Return a)
            | (g3, Raise e) => (g3, Raise e)
            end
        | (g2, Raise e) =>
            match __exit__ config self (Some e) g2 with
            | (g3, Return _) => (g3, Raise e)
            | (g3, Raise e') => (g3, Raise e')
            end
        end
    end.

(** ** Vocabulary of the statements *)

(** The argument at position [i] counts as tensor-typed: no signature
    list is installed, or its tag at [i] is the tensor kind. *)
Definition is_tensor_typed (sigs : option (list ArgSignature)) (i : nat) : bool :=
  match sigs with
  | None => true
  | Some tags =>
      match tags !! i with
      | Some sig => isinstance_TensorArg sig
      | None => false
      end
  end.

Fixpoint tensor_typed_from (sigs : option (list ArgSignature)) (i : nat)
    (args : list string) : list string :=
  match args with
  | [] => []
  | arg :: rest =>
      if is_tensor_typed sigs i then arg :: tensor_typed_from sigs (S i) rest
      else tensor_typed_from sigs (S i) rest
  end.

(** The watched arguments that are tensor-typed, in order. *)
Definition tensor_typed_args (self : DebugPrinterManager) : list string :=
  tensor_typed_from (arg_signatures self) 0 (args_to_print_or_save self).

(** An installed signature list has a tag for each of [n] arguments. *)
Definition signatures_cover (sigs : option (list ArgSignature)) (n : nat) : Prop :=
  match sigs with
  | None => True
  | Some tags => n <= length tags
  end.

Definition well_tagged (self : DebugPrinterManager) : Prop :=
  signatures_cover (arg_signatures self) (length (args_to_print_or_save self)).

(** Recognisers of the generated lines, by their fixed heads. *)
Definition is_save_line (line : string) : bool :=
  PyStr.startswith "aoti_torch_save_tensor_handle(" line.

Definition is_print_line (line : string) : bool :=
  PyStr.startswith "aoti_torch_print_tensor_handle(" line
  || PyStr.startswith "print('" line.

(** The save lines one phase appends for [args] on the current target:
    only the ABI-compatible C++ wrapper has a save path. *)
Definition save_lines (config : Config) (g : Graph) (before_launch : bool)
    (kernel_name_arg : string) (args : list string) : list string :=
  if cpp_wrapper g && abi_compatible config then
    map (fun arg => save_line arg (launch_prefix before_launch) kernel_name_arg)
      args
  else [].

(** The print lines one phase appends for [args] on the current target,
    when printing is not filtered out. *)
Definition print_lines (config : Config) (g : Graph) (before_launch : bool)
    (kernel_name_arg : string) (args : list string) : list string :=
  if cpp_wrapper g then
    if abi_compatible config then
      map (fun arg =>
             print_line_cpp arg (launch_prefix before_launch) kernel_name_arg)
        args
    else []
  else
    map (fun arg =>
           print_line_python arg (launch_prefix before_launch) kernel_name_arg)
      args.

(** The graph with [lines] appended to its code buffer. *)
Definition with_lines (g : Graph) (lines : list string) : Graph :=
  {| cpp_wrapper := cpp_wrapper g;
     wrapper_code := wrapper_code g ++ lines;
     all_codegen_kernel_names := all_codegen_kernel_names g |}.

(** Printing is skipped for this manager's kernel: the level is
    FILTERED_PRINT and the kernel name is not in the filter list. *)
Definition print_suppressed (self : DebugPrinterManager)
    (kernel_name_arg : string) : bool :=
  if decide (enable_debug_printer self = FILTERED_PRINT) then
    bool_decide (kernel_name_arg ∉ filtered_kernel_names_to_print self)
  else false.

(** A computation that never changes the kernel-name registry. *)
Definition keeps_kernel_names {A} (m : M A) : Prop :=
  forall g, all_codegen_kernel_names (m g).1 = all_codegen_kernel_names g.

(** The graph with [name] recorded in the kernel-name registry. *)
Definition with_kernel_name (g : Graph) (name : string) : Graph :=
  {| cpp_wrapper := cpp_wrapper g;
     wrapper_code := wrapper_code g;
     all_codegen_kernel_names := {[ name ]} ∪ all_codegen_kernel_names g |}.

(** The lines one phase of a scope appends when it completes: the save
    lines of the tensor-typed arguments, then, above SAVE level and
    unless the filter suppresses them, their print lines. *)
Definition phase_lines (config : Config) (g : Graph)
    (self : DebugPrinterManager) (before_launch : bool) : list string :=
  if decide (enable_debug_printer self = OFF) then []
  else
    save_lines config g before_launch (kernel_name self) (tensor_typed_args self)
    ++ (if decide (enable_debug_printer self = SAVE) then []
        else if print_suppressed self (kernel_name self) then []
        else print_lines config g before_launch (kernel_name self)
               (tensor_typed_args self)).

(** A configuration with the given ABI flag and filter option. *)
Definition configured (abi : bool) (names : option string) : Config :=
  {| abi_compatible := abi;
     aot_inductor := {| filtered_kernel_names := names |} |}.

(** An empty graph on the C++ wrapper ([cpp = true]) or on the Python
    wrapper. *)
Definition fresh_graph (cpp : bool) : Graph :=
  {| cpp_wrapper := cpp;
     wrapper_code := [];
     all_codegen_kernel_names := ∅ |}.

(** A manager built by the constructor in an environment where the
    level variable is [level], then pointed at a kernel. *)
Definition manager_for (level : string) (config : Config)
    (args : list string) (name : string)
    (sigs : option (list ArgSignature)) : DebugPrinterManager :=
  set_printer_args
    (__init__ {[ PRINTER_ENV_VAR := level ]} config OFF None "" None None)
    args name sigs None.

(** [s.count(c)] for a one-character pattern. *)
Fixpoint count_char (c : ascii) (s : string) : nat :=
  match s with
  | EmptyString => 0
  | String a rest => (if Ascii.eqb a c then 1 else 0) + count_char c rest
  end.

(** [c in s] for a one-character pattern. *)
Fixpoint has_char (c : ascii) (s : string) : bool :=
  match s with
  | EmptyString => false
  | String a rest => Ascii.eqb a c || has_char c rest
  end.

(** A line of one of the three generated formats. *)
Definition emitted_line (line : string) : bool :=
  is_save_line line || is_print_line line.

(** A computation whose only effect on the graph is to append generated
    lines to the code buffer. *)
Definition writes_only {A} (m : M A) : Prop :=
  forall g, exists lines,
    (m g).1 = with_lines g lines
    /\ Forall (fun line => emitted_line line = true) lines.

(** The installed tag list is shorter than the argument list. *)
Definition tags_short (self : DebugPrinterManager) : bool :=
  match arg_signatures self with
  | None => false
  | Some tags => length tags <? length (args_to_print_or_save self)
  end.

(** The outcome of one phase of a scope, read off the manager alone. *)
Definition scope_outcome (self : DebugPrinterManager) : Outcome unit :=
  if decide (enable_debug_printer self = OFF) then Return tt
  else if tags_short self then Raise IndexError
  else if decide (enable_debug_printer self = FILTERED_PRINT) then
    match filtered_kernel_names_to_print self, tensor_typed_args self with
    | [], _ :: _ => Raise AssertionError
    | _, _ => Return tt
    end
  else Return tt.

(** The manager with its level replaced. *)
Definition with_level (self : DebugPrinterManager)
    (level : IntermediateValueDebuggingLevel) : DebugPrinterManager :=
  {| enable_debug_printer := level;
     args_to_print_or_save := args_to_print_or_save self;
     kernel_name := kernel_name self;
     arg_signatures := arg_signatures self;
     kernel := kernel self;
     filtered_kernel_names_to_print := filtered_kernel_names_to_print self |}.

(** * Properties *)

(** ** Graph and monad bookkeeping *)

Lemma with_lines_nil g : with_lines g [] = g.
Proof. destruct g; unfold with_lines; simpl. by rewrite app_nil_r. Qed.

Lemma with_lines_app g a b :
  with_lines (with_lines g a) b = with_lines g (a ++ b).
Proof. unfold with_lines; simpl. by rewrite app_assoc. Qed.

Lemma writeline_with_lines line g :
  writeline line g = (with_lines g [line], Return tt).
Proof. reflexivity. Qed.

Lemma save_lines_with_lines config g lines bl k args :
  save_lines config (with_lines g lines) bl k args = save_lines config g bl k args.
Proof. reflexivity. Qed.

Lemma print_lines_with_lines config g lines bl k args :
  print_lines config (with_lines g lines) bl k args
  = print_lines config g bl k args.
Proof. reflexivity. Qed.

Lemma save_lines_app config g bl k a b :
  save_lines config g bl k (a ++ b)
  = save_lines config g bl k a ++ save_lines config g bl k b.
Proof.
  unfold save_lines. destruct (cpp_wrapper g && abi_compatible config).
  - apply map_app.
  - reflexivity.
Qed.

Lemma print_lines_app config g bl k a b :
  print_lines config g bl k (a ++ b)
  = print_lines config g bl k a ++ print_lines config g bl k b.
Proof.
  unfold print_lines.
  destruct (cpp_wrapper g), (abi_compatible config);
    first [ apply map_app | reflexivity ].
Qed.

Lemma tensor_typed_from_cons sigs i arg rest :
  tensor_typed_from sigs i (arg :: rest)
  = (if is_tensor_typed sigs i then [arg] else [])
    ++ tensor_typed_from sigs (S i) rest.
Proof. simpl. by destruct (is_tensor_typed sigs i). Qed.

(** Within the tags, the skip test returns and agrees with
    [is_tensor_typed]. *)
Lemma is_not_tensor_arg_covered sigs i g :
  signatures_cover sigs (S i) ->
  is_not_tensor_arg sigs i g = (g, Return (negb (is_tensor_typed sigs i))).
Proof.
  destruct sigs as [tags|]; simpl; [|done].
  intros Hlen. destruct (lookup_lt_is_Some_2 tags i Hlen) as [sig Hsig].
  by rewrite Hsig.
Qed.

(** Past the tags, the skip test raises. *)
Lemma is_not_tensor_arg_uncovered tags i g :
  length tags <= i ->
  is_not_tensor_arg (Some tags) i g = (g, Raise IndexError).
Proof.
  intros Hlen. simpl. by rewrite (lookup_ge_None_2 tags i Hlen).
Qed.

(** ** The save path *)

Lemma bind_return {A B} (m : M A) (k : A -> M B) g g' a :
  m g = (g', Return a) -> (m ≫= k) g = k a g'.
Proof. intros H. unfold mbind, M_bind. by rewrite H. Qed.

Lemma bind_raise {A B} (m : M A) (k : A -> M B) g g' e :
  m g = (g', Raise e) -> (m ≫= k) g = (g', Raise e).
Proof. intros H. unfold mbind, M_bind. by rewrite H. Qed.

Lemma save_iteration_returns config k bl sigs i arg g :
  signatures_cover sigs (S i) ->
  save_iteration config k bl sigs i arg g
  = (with_lines g
       (save_lines config g bl k (if is_tensor_typed sigs i then [arg] else [])),
     Return tt).
Proof.
  intros Hcov. unfold save_iteration.
  rewrite (bind_return _ _ _ _ _ (is_not_tensor_arg_covered sigs i g Hcov)).
  unfold save_lines.
  destruct (is_tensor_typed sigs i); cbn [negb].
  - rewrite (bind_return get_cpp_wrapper _ g g (cpp_wrapper g) eq_refl).
    destruct (cpp_wrapper g), (abi_compatible config); cbn [andb map];
      first [ apply writeline_with_lines
            | by rewrite with_lines_nil ].
  - destruct (cpp_wrapper g && abi_compatible config);
      by rewrite with_lines_nil.
Qed.

Lemma save_loop_returns config k bl sigs args : forall i g,
  signatures_cover sigs (i + length args) ->
  for_enumerate (save_iteration config k bl sigs) i args g
  = (with_lines g (save_lines config g bl k (tensor_typed_from sigs i args)),
     Return tt).
Proof.
  induction args as [|arg rest IH]; intros i g Hcov.
  - simpl. unfold save_lines.
    destruct (cpp_wrapper g && abi_compatible config);
      by rewrite with_lines_nil.
  - rewrite tensor_typed_from_cons, save_lines_app, <- with_lines_app.
    simpl in Hcov. cbn [for_enumerate].
    erewrite bind_return; last first.
    { apply save_iteration_returns. destruct sigs; simpl in *; lia. }
    rewrite IH by (destruct sigs; simpl in *; lia).
    reflexivity.
Qed.

Lemma save_returns config self bl g :
  well_tagged self ->
  codegen_intermediate_tensor_value_save config self
    (args_to_print_or_save self) (kernel_name self) bl (arg_signatures self) g
  = (with_lines g
       (save_lines config g bl (kernel_name self) (tensor_typed_args self)),
     Return tt).
Proof. intros Hcov. by apply save_loop_returns. Qed.

(** ** The print path *)

Lemma print_lines_nil config g bl k : print_lines config g bl k [] = [].
Proof.
  unfold print_lines. by destruct (cpp_wrapper g), (abi_compatible config).
Qed.

Lemma save_lines_nil config g bl k : save_lines config g bl k [] = [].
Proof.
  unfold save_lines. by destruct (cpp_wrapper g && abi_compatible config).
Qed.

(** The tail of one print iteration: the line the target writes. *)
Lemma print_emit config g bl k arg :
  (cpp ← get_cpp_wrapper;
   if (cpp : bool) then
     if abi_compatible config then
       writeline (print_line_cpp arg (launch_prefix bl) k)
     else mret tt
   else writeline (print_line_python arg (launch_prefix bl) k)) g
  = (with_lines g (print_lines config g bl k [arg]), Return tt).
Proof.
  rewrite (bind_return get_cpp_wrapper _ g g (cpp_wrapper g) eq_refl).
  unfold print_lines.
  destruct (cpp_wrapper g), (abi_compatible config); cbn [map];
    first [ apply writeline_with_lines | by rewrite with_lines_nil ].
Qed.

Lemma printer_iteration_skips config self k bl sigs i arg g :
  signatures_cover sigs (S i) ->
  is_tensor_typed sigs i = false ->
  printer_iteration config self k bl sigs i arg g = (g, Return tt).
Proof.
  intros Hcov Htag. unfold printer_iteration.
  rewrite (bind_return _ _ _ _ _ (is_not_tensor_arg_covered sigs i g Hcov)).
  by rewrite Htag.
Qed.

Lemma printer_iteration_asserts config self k bl sigs i arg g :
  signatures_cover sigs (S i) ->
  is_tensor_typed sigs i = true ->
  enable_debug_printer self = FILTERED_PRINT ->
  filtered_kernel_names_to_print self = [] ->
  printer_iteration config self k bl sigs i arg g = (g, Raise AssertionError).
Proof.
  intros Hcov Htag Hlevel Hempty. unfold printer_iteration.
  rewrite (bind_return _ _ _ _ _ (is_not_tensor_arg_covered sigs i g Hcov)).
  rewrite Htag. cbn [negb].
  rewrite decide_True by done. rewrite Hempty. reflexivity.
Qed.

Lemma printer_iteration_returns config self k bl sigs i arg g :
  signatures_cover sigs (S i) ->
  (enable_debug_printer self = FILTERED_PRINT ->
   filtered_kernel_names_to_print self <> []) ->
  printer_iteration config self k bl sigs i arg g
  = (with_lines g
       (if print_suppressed self k then []
        else print_lines config g bl k
               (if is_tensor_typed sigs i then [arg] else [])),
     Return tt).
Proof.
  intros Hcov Hfilter. unfold printer_iteration, print_suppressed.
  rewrite (bind_return _ _ _ _ _ (is_not_tensor_arg_covered sigs i g Hcov)).
  destruct (is_tensor_typed sigs i); cbn [negb].
  - destruct (decide (enable_debug_printer self = FILTERED_PRINT)) as [Hl|Hl].
    + specialize (Hfilter Hl).
      destruct (filtered_kernel_names_to_print self) as [|name names] eqn:Hnames;
        [done|].
      erewrite bind_return; [|reflexivity].
      destruct (bool_decide (k ∉ name :: names)).
      * by rewrite with_lines_nil.
      * apply print_emit.
    + erewrite bind_return; [|reflexivity]. apply print_emit.
  - rewrite print_lines_nil.
    destruct (decide _); [destruct (bool_decide _)|]; by rewrite with_lines_nil.
Qed.

Lemma printer_loop_returns config self k bl sigs args : forall i g,
  signatures_cover sigs (i + length args) ->
  (enable_debug_printer self = FILTERED_PRINT ->
   filtered_kernel_names_to_print self <> []) ->
  for_enumerate (printer_iteration config self k bl sigs) i args g
  = (with_lines g
       (if print_suppressed self k then []
        else print_lines config g bl k (tensor_typed_from sigs i args)),
     Return tt).
Proof.
  induction args as [|arg rest IH]; intros i g Hcov Hfilter.
  - simpl. rewrite print_lines_nil.
    destruct (print_suppressed self k); by rewrite with_lines_nil.
  - simpl in Hcov. cbn [for_enumerate].
    erewrite bind_return; last first.
    { apply printer_iteration_returns; [|done].
      destruct sigs; simpl in *; lia. }
    rewrite IH by (done || destruct sigs; simpl in *; lia).
    rewrite with_lines_app, tensor_typed_from_cons, print_lines_app.
    destruct (print_suppressed self k); reflexivity.
Qed.

Lemma printer_loop_no_tensor config self k bl sigs args : forall i g,
  signatures_cover sigs (i + length args) ->
  tensor_typed_from sigs i args = [] ->
  for_enumerate (printer_iteration config self k bl sigs) i args g
  = (g, Return tt).
Proof.
  induction args as [|arg rest IH]; intros i g Hcov Hnone; [done|].
  simpl in Hcov, Hnone. cbn [for_enumerate].
  destruct (is_tensor_typed sigs i) eqn:Htag; [done|].
  erewrite bind_return; last first.
  { apply printer_iteration_skips; [|done]. destruct sigs; simpl in *; lia. }
  apply IH; [|done]. destruct sigs; simpl in *; lia.
Qed.

Lemma printer_loop_asserts config self k bl sigs args : forall i g,
  signatures_cover sigs (i + length args) ->
  tensor_typed_from sigs i args <> [] ->
  enable_debug_printer self = FILTERED_PRINT ->
  filtered_kernel_names_to_print self = [] ->
  for_enumerate (printer_iteration config self k bl sigs) i args g
  = (g, Raise AssertionError).
Proof.
  induction args as [|arg rest IH]; intros i g Hcov Hsome Hlevel Hempty; [done|].
  simpl in Hcov, Hsome. cbn [for_enumerate].
  assert (signatures_cover sigs (S i)) as Hi
    by (destruct sigs; simpl in *; lia).
  destruct (is_tensor_typed sigs i) eqn:Htag.
  - erewrite bind_raise; [done|]. by apply printer_iteration_asserts.
  - erewrite bind_return; [|by apply printer_iteration_skips].
    apply IH; [|done..]. destruct sigs; simpl in *; lia.
Qed.

(** ** Scope entry and exit *)

Lemma phase_returns config self bl g :
  enable_debug_printer self <> OFF ->
  well_tagged self ->
  (enable_debug_printer self = FILTERED_PRINT ->
   filtered_kernel_names_to_print self <> []) ->
  (codegen_intermediate_tensor_value_save config self
     (args_to_print_or_save self) (kernel_name self) bl (arg_signatures self);;
   if decide (enable_debug_printer self <> SAVE) then
     codegen_intermediate_tensor_value_printer config self
       (args_to_print_or_save self) (kernel_name self) bl (arg_signatures self)
   else mret tt) g
  = (with_lines g (phase_lines config g self bl), Return tt).
Proof.
  intros Hon Htags Hfilter. unfold phase_lines.
  rewrite (decide_False (P := enable_debug_printer self = OFF)) by done.
  erewrite bind_return; [|by apply save_returns].
  destruct (decide (enable_debug_printer self = SAVE)) as [Hs|Hs].
  - rewrite (decide_False (P := enable_debug_printer self <> SAVE))
      by (intros H; by apply H).
    by rewrite app_nil_r.
  - rewrite (decide_True (P := enable_debug_printer self <> SAVE)) by done.
    unfold codegen_intermediate_tensor_value_printer.
    rewrite printer_loop_returns by done.
    rewrite with_lines_app. unfold tensor_typed_args.
    destruct (print_suppressed self (kernel_name self)); reflexivity.
Qed.

Lemma enter_off config self g :
  enable_debug_printer self = OFF -> __enter__ config self g = (g, Return tt).
Proof. intros Hoff. unfold __enter__. by rewrite decide_False by auto. Qed.

Lemma exit_off config self exc g :
  enable_debug_printer self = OFF -> __exit__ config self exc g = (g, Return tt).
Proof. intros Hoff. unfold __exit__. by rewrite decide_False by auto. Qed.

Lemma enter_returns config self g :
  enable_debug_printer self <> OFF ->
  well_tagged self ->
  (enable_debug_printer self = FILTERED_PRINT ->
   filtered_kernel_names_to_print self <> []) ->
  __enter__ config self g
  = (with_lines (with_kernel_name g (kernel_name self))
       (phase_lines config g self true),
     Return tt).
Proof.
  intros Hon Htags Hfilter. unfold __enter__.
  rewrite decide_True by done.
  erewrite bind_return; [|reflexivity].
  by rewrite phase_returns.
Qed.

Lemma exit_returns config self exc g :
  enable_debug_printer self <> OFF ->
  well_tagged self ->
  (enable_debug_printer self = FILTERED_PRINT ->
   filtered_kernel_names_to_print self <> []) ->
  __exit__ config self exc g
  = (with_lines g (phase_lines config g self false), Return tt).
Proof.
  intros Hon Htags Hfilter. unfold __exit__.
  rewrite decide_True by done.
  by rewrite phase_returns.
Qed.

(** With no tensor-typed argument neither path writes nor asserts. *)
Lemma phase_no_tensor config self bl g :
  well_tagged self ->
  tensor_typed_args self = [] ->
  (codegen_intermediate_tensor_value_save config self
     (args_to_print_or_save self) (kernel_name self) bl (arg_signatures self);;
   if decide (enable_debug_printer self <> SAVE) then
     codegen_intermediate_tensor_value_printer config self
       (args_to_print_or_save self) (kernel_name self) bl (arg_signatures self)
   else mret tt) g
  = (g, Return tt).
Proof.
  intros Htags Hnone.
  erewrite bind_return; [|by apply save_returns].
  rewrite Hnone, save_lines_nil, with_lines_nil.
  destruct (decide _); [|done].
  by apply printer_loop_no_tensor.
Qed.

(** At FILTERED_PRINT with an empty filter list, the first tensor-typed
    argument of the print path fails the assertion, after the save path
    has run. *)
Lemma phase_asserts config self bl g :
  well_tagged self ->
  tensor_typed_args self <> [] ->
  enable_debug_printer self = FILTERED_PRINT ->
  filtered_kernel_names_to_print self = [] ->
  (codegen_intermediate_tensor_value_save config self
     (args_to_print_or_save self) (kernel_name self) bl (arg_signatures self);;
   if decide (enable_debug_printer self <> SAVE) then
     codegen_intermediate_tensor_value_printer config self
       (args_to_print_or_save self) (kernel_name self) bl (arg_signatures self)
   else mret tt) g
  = (with_lines g
       (save_lines config g bl (kernel_name self) (tensor_typed_args self)),
     Raise AssertionError).
Proof.
  intros Htags Hsome Hlevel Hempty.
  erewrite bind_return; [|by apply save_returns].
  rewrite decide_True by (by rewrite Hlevel).
  by apply printer_loop_asserts.
Qed.

(** ** Telling save lines from print lines *)

Lemma save_line_is_save arg prefix k : is_save_line (save_line arg prefix k) = true.
Proof. reflexivity. Qed.

Lemma save_line_not_print arg prefix k :
  is_print_line (save_line arg prefix k) = false.
Proof. reflexivity. Qed.

Lemma print_line_cpp_is_print arg prefix k :
  is_print_line (print_line_cpp arg prefix k) = true.
Proof. reflexivity. Qed.

Lemma print_line_cpp_not_save arg prefix k :
  is_save_line (print_line_cpp arg prefix k) = false.
Proof. reflexivity. Qed.

Lemma print_line_python_is_print arg prefix k :
  is_print_line (print_line_python arg prefix k) = true.
Proof. reflexivity. Qed.

Lemma print_line_python_not_save arg prefix k :
  is_save_line (print_line_python arg prefix k) = false.
Proof. reflexivity. Qed.

Lemma filter_map_all {A} (p : string -> bool) (f : A -> string) (l : list A) :
  (forall a, p (f a) = true) -> List.filter p (map f l) = map f l.
Proof.
  intros Hall. induction l as [|a l IH]; simpl; [done|].
  by rewrite Hall, IH.
Qed.

Lemma filter_map_none {A} (p : string -> bool) (f : A -> string) (l : list A) :
  (forall a, p (f a) = false) -> List.filter p (map f l) = [].
Proof.
  intros Hnone. induction l as [|a l IH]; simpl; [done|].
  by rewrite Hnone.
Qed.

Lemma save_lines_no_print config g bl k args :
  List.filter is_print_line (save_lines config g bl k args) = [].
Proof.
  unfold save_lines. destruct (cpp_wrapper g && abi_compatible config); [|done].
  apply filter_map_none. intros a. apply save_line_not_print.
Qed.

Lemma save_lines_all_save config g bl k args :
  List.filter is_save_line (save_lines config g bl k args)
  = save_lines config g bl k args.
Proof.
  unfold save_lines. destruct (cpp_wrapper g && abi_compatible config); [|done].
  apply filter_map_all. intros a. apply save_line_is_save.
Qed.

Lemma print_lines_no_save config g bl k args :
  List.filter is_save_line (print_lines config g bl k args) = [].
Proof.
  unfold print_lines.
  destruct (cpp_wrapper g), (abi_compatible config); try done;
    apply filter_map_none; intros a;
    first [ apply print_line_cpp_not_save | apply print_line_python_not_save ].
Qed.

Lemma print_lines_all_print config g bl k args :
  List.filter is_print_line (print_lines config g bl k args)
  = print_lines config g bl k args.
Proof.
  unfold print_lines.
  destruct (cpp_wrapper g), (abi_compatible config); try done;
    apply filter_map_all; intros a;
    first [ apply print_line_cpp_is_print | apply print_line_python_is_print ].
Qed.

(** ** The level resolver *)

Lemma level_of_value environ v :
  environ !! PRINTER_ENV_VAR = Some v ->
  aot_inductor_debug_intermediate_tensor_value_level environ
  = if String.eqb v "1" then SAVE
    else if String.eqb v "2" then DEFAULT_PRINT
    else if String.eqb v "3" then FILTERED_PRINT
    else OFF.
Proof.
  intros Hv. unfold aot_inductor_debug_intermediate_tensor_value_level,
    environ_get. by rewrite Hv.
Qed.

(** C6: the resolver maps the value of the environment variable
    AOT_INDUCTOR_DEBUG_INTERMEDIATE_VALUE_PRINTER to a level, for every
    environment: the value 1 to SAVE, 2 to DEFAULT_PRINT, 3 to
    FILTERED_PRINT, and every other value, 0 and the unset variable
    included, to OFF.  The resolver is a total function to the four
    levels: it has no error outcome. *)
Theorem level_resolution (environ : gmap string string) :
  (environ !! PRINTER_ENV_VAR = Some "1" ->
   aot_inductor_debug_intermediate_tensor_value_level environ = SAVE)
  /\ (environ !! PRINTER_ENV_VAR = Some "2" ->
      aot_inductor_debug_intermediate_tensor_value_level environ = DEFAULT_PRINT)
  /\ (environ !! PRINTER_ENV_VAR = Some "3" ->
      aot_inductor_debug_intermediate_tensor_value_level environ = FILTERED_PRINT)
  /\ (environ !! PRINTER_ENV_VAR = Some "0" ->
      aot_inductor_debug_intermediate_tensor_value_level environ = OFF)
  /\ (environ !! PRINTER_ENV_VAR = None ->
      aot_inductor_debug_intermediate_tensor_value_level environ = OFF)
  /\ (forall v, environ !! PRINTER_ENV_VAR = Some v ->
        v <> "1" -> v <> "2" -> v <> "3" ->
        aot_inductor_debug_intermediate_tensor_value_level environ = OFF).
Proof.
  repeat split.
  - intros H. by rewrite (level_of_value _ _ H).
  - intros H. by rewrite (level_of_value _ _ H).
  - intros H. by rewrite (level_of_value _ _ H).
  - intros H. by rewrite (level_of_value _ _ H).
  - intros H.
    unfold aot_inductor_debug_intermediate_tensor_value_level, environ_get.
    by rewrite H.
  - intros v H H1 H2 H3. rewrite (level_of_value _ _ H).
    apply String.eqb_neq in H1, H2, H3. by rewrite H1, H2, H3.
Qed.

Lemma level_resolution_witness :
  aot_inductor_debug_intermediate_tensor_value_level
    {[ PRINTER_ENV_VAR := "1" ]} = SAVE
  /\ aot_inductor_debug_intermediate_tensor_value_level
       {[ PRINTER_ENV_VAR := "2" ]} = DEFAULT_PRINT
  /\ aot_inductor_debug_intermediate_tensor_value_level
       {[ PRINTER_ENV_VAR := "3" ]} = FILTERED_PRINT
  /\ aot_inductor_debug_intermediate_tensor_value_level
       {[ PRINTER_ENV_VAR := "0" ]} = OFF
  /\ aot_inductor_debug_intermediate_tensor_value_level ∅ = OFF
  /\ aot_inductor_debug_intermediate_tensor_value_level
       {[ PRINTER_ENV_VAR := "verbose" ]} = OFF.
Proof.
  split; [|split; [|split; [|split; [|split]]]].
  - destruct (level_resolution {[ PRINTER_ENV_VAR := "1" ]}) as (H & _).
    apply H, lookup_singleton_eq.
  - destruct (level_resolution {[ PRINTER_ENV_VAR := "2" ]}) as (_ & H & _).
    apply H, lookup_singleton_eq.
  - destruct (level_resolution {[ PRINTER_ENV_VAR := "3" ]})
      as (_ & _ & H & _).
    apply H, lookup_singleton_eq.
  - destruct (level_resolution {[ PRINTER_ENV_VAR := "0" ]})
      as (_ & _ & _ & H & _).
    apply H, lookup_singleton_eq.
  - destruct (level_resolution ∅) as (_ & _ & _ & _ & H & _).
    apply H, lookup_empty.
  - destruct (level_resolution {[ PRINTER_ENV_VAR := "verbose" ]})
      as (_ & _ & _ & _ & _ & H).
    apply (H "verbose"); [apply lookup_singleton_eq | discriminate..].
Defined.

(** ** Level OFF *)

(** C7: when the manager's level is OFF, scope entry and scope exit
    return normally and leave the graph as it was: no line is appended
    to the code buffer and the kernel-name registry is not modified,
    whatever the argument list, kernel name and type tags of the manager
    are. *)
Theorem off_is_noop (config : Config) (self : DebugPrinterManager)
    (exc : option Exception) (g : Graph) :
  enable_debug_printer self = OFF ->
  __enter__ config self g = (g, Return tt)
  /\ __exit__ config self exc g = (g, Return tt)
  /\ wrapper_code (__enter__ config self g).1 = wrapper_code g
  /\ all_codegen_kernel_names (__enter__ config self g).1
     = all_codegen_kernel_names g
  /\ wrapper_code (__exit__ config self exc g).1 = wrapper_code g
  /\ all_codegen_kernel_names (__exit__ config self exc g).1
     = all_codegen_kernel_names g.
Proof.
  intros Hoff.
  rewrite (enter_off config self g Hoff), (exit_off config self exc g Hoff).
  done.
Qed.

Lemma off_is_noop_witness :
  let self := manager_for "0" (configured true None) ["buf0"; "s0"] "k0"
                (Some [TensorArg; SizeArg]) in
  let g := fresh_graph true in
  __enter__ (configured true None) self g = (g, Return tt)
  /\ __exit__ (configured true None) self (Some (OtherException "RuntimeError")) g
     = (g, Return tt)
  /\ wrapper_code (__enter__ (configured true None) self g).1 = wrapper_code g
  /\ all_codegen_kernel_names (__enter__ (configured true None) self g).1
     = all_codegen_kernel_names g
  /\ wrapper_code
       (__exit__ (configured true None) self
          (Some (OtherException "RuntimeError")) g).1 = wrapper_code g
  /\ all_codegen_kernel_names
       (__exit__ (configured true None) self
          (Some (OtherException "RuntimeError")) g).1
     = all_codegen_kernel_names g.
Proof.
  apply (off_is_noop (configured true None)
           (manager_for "0" (configured true None) ["buf0"; "s0"] "k0"
              (Some [TensorArg; SizeArg]))
           (Some (OtherException "RuntimeError")) (fresh_graph true)).
  vm_compute. reflexivity.
Defined.

(** ** The kernel-name registry *)

Lemma keeps_ret {A} (a : A) : keeps_kernel_names (mret a : M A).
Proof. by intros g. Qed.

Lemma keeps_raise {A} e : keeps_kernel_names (raise e : M A).
Proof. by intros g. Qed.

Lemma keeps_bind {A B} (m : M A) (k : A -> M B) :
  keeps_kernel_names m -> (forall a, keeps_kernel_names (k a)) ->
  keeps_kernel_names (m ≫= k).
Proof.
  intros Hm Hk g. specialize (Hm g). unfold mbind, M_bind.
  destruct (m g) as [g' [a|e]]; simpl in *; [|done].
  by rewrite Hk.
Qed.

Lemma keeps_writeline line : keeps_kernel_names (writeline line).
Proof. by intros g. Qed.

Lemma keeps_is_not_tensor_arg sigs i :
  keeps_kernel_names (is_not_tensor_arg sigs i).
Proof.
  intros g. destruct sigs as [tags|]; simpl; [|done].
  by destruct (tags !! i).
Qed.

Lemma keeps_for_enumerate {A} (body : nat -> A -> M unit) xs :
  (forall i x, keeps_kernel_names (body i x)) ->
  forall i, keeps_kernel_names (for_enumerate body i xs).
Proof.
  intros Hbody. induction xs as [|x rest IH]; intros i; simpl.
  - apply keeps_ret.
  - apply keeps_bind; [apply Hbody|]. intros _. apply IH.
Qed.

Lemma keeps_save config self args k bl sigs :
  keeps_kernel_names
    (codegen_intermediate_tensor_value_save config self args k bl sigs).
Proof.
  apply keeps_for_enumerate. intros i arg. unfold save_iteration.
  apply keeps_bind; [apply keeps_is_not_tensor_arg|].
  intros [|]; [apply keeps_ret|].
  apply keeps_bind; [by intros g|].
  intros [|]; [|apply keeps_ret].
  destruct (abi_compatible config); [apply keeps_writeline | apply keeps_ret].
Qed.

Lemma keeps_printer config self args k bl sigs :
  keeps_kernel_names
    (codegen_intermediate_tensor_value_printer config self args k bl sigs).
Proof.
  apply keeps_for_enumerate. intros i arg. unfold printer_iteration.
  apply keeps_bind; [apply keeps_is_not_tensor_arg|].
  intros [|]; [apply keeps_ret|].
  apply keeps_bind.
  { destruct (decide _); [|apply keeps_ret].
    apply keeps_bind; [|intros _; apply keeps_ret].
    unfold assert. destruct (0 <? _); [apply keeps_ret | apply keeps_raise]. }
  intros [|]; [apply keeps_ret|].
  apply keeps_bind; [by intros g|].
  intros [|]; [|apply keeps_writeline].
  destruct (abi_compatible config); [apply keeps_writeline | apply keeps_ret].
Qed.

Lemma keeps_exit config self exc : keeps_kernel_names (__exit__ config self exc).
Proof.
  unfold __exit__. destruct (decide _); [|apply keeps_ret].
  apply keeps_bind; [apply keeps_save|]. intros _.
  destruct (decide _); [apply keeps_printer | apply keeps_ret].
Qed.

(** Entry at a level other than OFF records the kernel name, whether it
    then returns or raises. *)
Lemma enter_kernel_names config self g :
  enable_debug_printer self <> OFF ->
  all_codegen_kernel_names (__enter__ config self g).1
  = {[ kernel_name self ]} ∪ all_codegen_kernel_names g.
Proof.
  intros Hon. unfold __enter__. rewrite decide_True by done.
  erewrite bind_return; [|reflexivity].
  pose proof (keeps_bind
    (codegen_intermediate_tensor_value_save config self
       (args_to_print_or_save self) (kernel_name self) true
       (arg_signatures self))
    (fun _ => if decide (enable_debug_printer self <> SAVE) then
                codegen_intermediate_tensor_value_printer config self
                  (args_to_print_or_save self) (kernel_name self) true
                  (arg_signatures self)
              else mret tt)) as Hkeep.
  rewrite Hkeep; [done|apply keeps_save|].
  intros _. destruct (decide _); [apply keeps_printer | apply keeps_ret].
Qed.

(** C10: at every level other than OFF, scope entry adds the manager's
    kernel name to the kernel-name registry, and it does so also when it
    appends no line to the code buffer: when the argument list is empty,
    when no argument is tensor-typed, and when the target's save and
    print paths are the stubs of the non-ABI C++ wrapper. *)
Theorem enter_registers_kernel_name (config : Config)
    (self : DebugPrinterManager) (g : Graph) :
  enable_debug_printer self <> OFF ->
  kernel_name self ∈ all_codegen_kernel_names (__enter__ config self g).1
  /\ all_codegen_kernel_names (__enter__ config self g).1
     = {[ kernel_name self ]} ∪ all_codegen_kernel_names g
  /\ (args_to_print_or_save self = [] ->
      __enter__ config self g
      = (with_kernel_name g (kernel_name self), Return tt))
  /\ (well_tagged self -> tensor_typed_args self = [] ->
      __enter__ config self g
      = (with_kernel_name g (kernel_name self), Return tt))
  /\ (well_tagged self -> cpp_wrapper g = true -> abi_compatible config = false ->
      (enable_debug_printer self = FILTERED_PRINT ->
       filtered_kernel_names_to_print self <> []) ->
      __enter__ config self g
      = (with_kernel_name g (kernel_name self), Return tt)).
Proof.
  intros Hon.
  assert (forall Htags : well_tagged self, tensor_typed_args self = [] ->
            __enter__ config self g
            = (with_kernel_name g (kernel_name self), Return tt)) as Hnone.
  { intros Htags Hno. unfold __enter__. rewrite decide_True by done.
    erewrite bind_return; [|reflexivity].
    by apply phase_no_tensor. }
  split; [|split; [|split; [|split]]].
  - rewrite enter_kernel_names by done. set_solver.
  - by apply enter_kernel_names.
  - intros Hargs. apply Hnone.
    + unfold well_tagged. rewrite Hargs. destruct (arg_signatures self); simpl; lia.
    + unfold tensor_typed_args. by rewrite Hargs.
  - exact Hnone.
  - intros Htags Hcpp Habi Hfilter. rewrite enter_returns by done.
    unfold phase_lines, save_lines, print_lines. rewrite Hcpp, Habi.
    rewrite decide_False by done. simpl.
    replace (if decide (enable_debug_printer self = SAVE) then []
             else if print_suppressed self (kernel_name self) then [] else [])
      with (@nil string)
      by (destruct (decide _); [done|];
          by destruct (print_suppressed self (kernel_name self))).
    by rewrite with_lines_nil.
Qed.

Lemma enter_registers_kernel_name_witness :
  let config := configured false None in
  let self := manager_for "2" config ["buf0"] "k0" None in
  let g := fresh_graph true in
  "k0" ∈ all_codegen_kernel_names (__enter__ config self g).1
  /\ __enter__ config self g = (with_kernel_name g "k0", Return tt)
  /\ wrapper_code (with_kernel_name g "k0") = wrapper_code g.
Proof.
  destruct (enter_registers_kernel_name (configured false None)
              (manager_for "2" (configured false None) ["buf0"] "k0" None)
              (fresh_graph true))
    as (Hin & _ & _ & _ & Hstub).
  - vm_compute. discriminate.
  - split; [exact Hin|]. split; [|reflexivity].
    apply Hstub.
    + exact I.
    + reflexivity.
    + reflexivity.
    + vm_compute. discriminate.
Defined.

(** ** The constructor and the type tags *)

Lemma tensor_typed_from_untagged args : forall i,
  tensor_typed_from None i args = args.
Proof. induction args as [|arg rest IH]; intros i; simpl; [done|]. by rewrite IH. Qed.

(** C9: for every constructor invocation the stored per-argument type-tag
    list is None, whatever arg_signatures argument is supplied; so on the
    constructed manager every watched argument counts as tensor-typed and
    the save and print paths visit every watched argument without any
    type-tag filtering; set_printer_args is the operation that installs
    the tag list it is given. *)
Theorem constructor_stores_no_signatures (environ : gmap string string)
    (config : Config) (level_arg : IntermediateValueDebuggingLevel)
    (args_arg : option (list string)) (name : string)
    (kernel_arg : option KernelRef) (sigs_arg : option (list ArgSignature)) :
  let self := __init__ environ config level_arg args_arg name kernel_arg sigs_arg in
  arg_signatures self = None
  /\ (forall i, is_tensor_typed (arg_signatures self) i = true)
  /\ tensor_typed_args self = args_to_print_or_save self
  /\ (forall bl g,
        codegen_intermediate_tensor_value_save config self
          (args_to_print_or_save self) (kernel_name self) bl
          (arg_signatures self) g
        = (with_lines g
             (save_lines config g bl (kernel_name self)
                (args_to_print_or_save self)),
           Return tt))
  /\ (forall bl g,
        enable_debug_printer self <> FILTERED_PRINT ->
        codegen_intermediate_tensor_value_printer config self
          (args_to_print_or_save self) (kernel_name self) bl
          (arg_signatures self) g
        = (with_lines g
             (print_lines config g bl (kernel_name self)
                (args_to_print_or_save self)),
           Return tt))
  /\ (forall args name' sigs kernel',
        arg_signatures (set_printer_args self args name' sigs kernel') = sigs).
Proof.
  intros self.
  assert (tensor_typed_args self = args_to_print_or_save self) as Hall
    by apply tensor_typed_from_untagged.
  assert (well_tagged self) as Htags by exact I.
  repeat split.
  - exact Hall.
  - intros bl g. rewrite <- Hall at 2. by apply save_returns.
  - intros bl g Hlevel.
    unfold codegen_intermediate_tensor_value_printer.
    rewrite printer_loop_returns by done.
    unfold print_suppressed. rewrite decide_False by done.
    change (arg_signatures self) with (@None (list ArgSignature)).
    by rewrite tensor_typed_from_untagged.
Qed.

(** ** Level SAVE *)

(** C2, amended: at SAVE level, for every manager whose tag list, if
    any, has a tag for each watched argument, entry and exit return
    normally; on the ABI-compatible C++ wrapper target entry appends
    exactly one save line per tensor-typed argument, exit appends exactly
    one per tensor-typed argument, and no print line is appended; on the
    other targets the save path is a stub, and entry and exit append
    nothing. *)
Theorem save_level_lines (config : Config) (self : DebugPrinterManager)
    (exc : option Exception) (g : Graph) :
  enable_debug_printer self = SAVE ->
  well_tagged self ->
  let k := kernel_name self in
  let native := cpp_wrapper g && abi_compatible config in
  let before :=
    if native then
      map (fun arg => save_line arg "before_launch" k) (tensor_typed_args self)
    else [] in
  let after :=
    if native then
      map (fun arg => save_line arg "after_launch" k) (tensor_typed_args self)
    else [] in
  __enter__ config self g
  = (with_lines (with_kernel_name g k) before, Return tt)
  /\ __exit__ config self exc g = (with_lines g after, Return tt)
  /\ (__enter__ config self;; __exit__ config self exc) g
     = (with_lines (with_kernel_name g k) (before ++ after), Return tt)
  /\ length (List.filter is_save_line before)
     = (if native then length (tensor_typed_args self) else 0)
  /\ length (List.filter is_save_line after)
     = (if native then length (tensor_typed_args self) else 0)
  /\ List.filter is_print_line (before ++ after) = [].
Proof.
  intros Hlevel Htags k native before after.
  assert (enable_debug_printer self <> OFF) as Hon by (by rewrite Hlevel).
  assert (enable_debug_printer self = FILTERED_PRINT ->
          filtered_kernel_names_to_print self <> []) as Hfilter
    by (by rewrite Hlevel).
  assert (forall g' bl, phase_lines config g' self bl
            = save_lines config g' bl k (tensor_typed_args self)) as Hphase.
  { intros g' bl. unfold phase_lines.
    rewrite decide_False by done. rewrite decide_True by done.
    by rewrite app_nil_r. }
  assert (save_lines config g true k (tensor_typed_args self) = before)
    as Hbefore by reflexivity.
  assert (save_lines config g false k (tensor_typed_args self) = after)
    as Hafter by reflexivity.
  split; [|split; [|split; [|split; [|split]]]].
  - rewrite enter_returns by done. by rewrite Hphase, Hbefore.
  - rewrite exit_returns by done. by rewrite Hphase, Hafter.
  - erewrite bind_return; [|by apply enter_returns].
    rewrite exit_returns by done. rewrite !Hphase, with_lines_app.
    by rewrite Hbefore.
  - rewrite <- Hbefore, save_lines_all_save. unfold save_lines. fold native.
    destruct native; [apply length_map|done].
  - rewrite <- Hafter, save_lines_all_save. unfold save_lines. fold native.
    destruct native; [apply length_map|done].
  - rewrite List.filter_app, <- Hbefore, <- Hafter.
    by rewrite !save_lines_no_print.
Qed.

Lemma save_level_lines_witness :
  let config := configured true None in
  let self := manager_for "1" config ["buf0"; "n"; "buf1"] "k0"
                (Some [TensorArg; SizeArg; TensorArg]) in
  let g := fresh_graph true in
  let before := [save_line "buf0" "before_launch" "k0";
                 save_line "buf1" "before_launch" "k0"] in
  let after := [save_line "buf0" "after_launch" "k0";
                save_line "buf1" "after_launch" "k0"] in
  __enter__ config self g
  = (with_lines (with_kernel_name g "k0") before, Return tt)
  /\ __exit__ config self None g = (with_lines g after, Return tt)
  /\ (__enter__ config self;; __exit__ config self None) g
     = (with_lines (with_kernel_name g "k0") (before ++ after), Return tt)
  /\ length (List.filter is_save_line before) = 2
  /\ length (List.filter is_save_line after) = 2
  /\ List.filter is_print_line (before ++ after) = [].
Proof.
  apply (save_level_lines (configured true None)
           (manager_for "1" (configured true None) ["buf0"; "n"; "buf1"] "k0"
              (Some [TensorArg; SizeArg; TensorArg]))
           None (fresh_graph true)).
  - reflexivity.
  - unfold well_tagged. simpl. lia.
Defined.

(** C2 as stated fails on the Python wrapper target: at SAVE level with
    one tensor-typed argument, entry and exit append no line at all. *)
Lemma save_level_python_wrapper_appends_nothing :
  let config := configured true None in
  let self := manager_for "1" config ["buf0"] "k0" (Some [TensorArg]) in
  let g := fresh_graph false in
  enable_debug_printer self = SAVE
  /\ tensor_typed_args self = ["buf0"]
  /\ (__enter__ config self g).2 = Return tt
  /\ wrapper_code (__enter__ config self g).1 = []
  /\ (__exit__ config self None (__enter__ config self g).1).2 = Return tt
  /\ wrapper_code (__exit__ config self None (__enter__ config self g).1).1 = [].
Proof. vm_compute. done. Qed.

(** ** Level DEFAULT_PRINT *)

(** C3, amended: on the ABI-compatible C++ wrapper target, at
    DEFAULT_PRINT level with the one tensor-tagged argument buf0 and the
    kernel name k0, entering then exiting the scope appends exactly four
    lines, in this order: the before_launch save line, the before_launch
    print line, the after_launch save line and the after_launch print
    line of buf0, each in the verbatim native format. *)
Theorem default_print_scenario (environ : gmap string string)
    (config : Config) (g : Graph)
    (level_arg : IntermediateValueDebuggingLevel)
    (args_arg : option (list string)) (name_arg : string)
    (kernel_arg kernel' : option KernelRef)
    (sigs_arg : option (list ArgSignature)) (exc : option Exception) :
  environ !! PRINTER_ENV_VAR = Some "2" ->
  cpp_wrapper g = true ->
  abi_compatible config = true ->
  let self :=
    set_printer_args
      (__init__ environ config level_arg args_arg name_arg kernel_arg sigs_arg)
      ["buf0"] "k0" (Some [TensorArg]) kernel' in
  let q := PyStr.dquote in
  let save_before :=
    "aoti_torch_save_tensor_handle(buf0, " +:+ q +:+ "buf0" +:+ q +:+ ", "
    +:+ q +:+ "before_launch" +:+ q +:+ ", " +:+ q +:+ "k0" +:+ q +:+ ");" in
  let print_before :=
    "aoti_torch_print_tensor_handle(buf0, " +:+ q
    +:+ "before_launch - k0 - buf0" +:+ q +:+ ");" in
  let save_after :=
    "aoti_torch_save_tensor_handle(buf0, " +:+ q +:+ "buf0" +:+ q +:+ ", "
    +:+ q +:+ "after_launch" +:+ q +:+ ", " +:+ q +:+ "k0" +:+ q +:+ ");" in
  let print_after :=
    "aoti_torch_print_tensor_handle(buf0, " +:+ q
    +:+ "after_launch - k0 - buf0" +:+ q +:+ ");" in
  enable_debug_printer self = DEFAULT_PRINT
  /\ __enter__ config self g
     = (with_lines (with_kernel_name g "k0") [save_before; print_before],
        Return tt)
  /\ (__enter__ config self;; __exit__ config self exc) g
     = (with_lines (with_kernel_name g "k0")
          [save_before; print_before; save_after; print_after],
        Return tt).
Proof.
  intros Henv Hcpp Habi self q save_before print_before save_after print_after.
  assert (enable_debug_printer self = DEFAULT_PRINT) as Hlevel.
  { unfold self. cbn [set_printer_args enable_debug_printer __init__].
    by rewrite (level_of_value _ _ Henv). }
  assert (enable_debug_printer self <> OFF) as Hon by (by rewrite Hlevel).
  assert (well_tagged self) as Htags by (unfold well_tagged; simpl; lia).
  assert (enable_debug_printer self = FILTERED_PRINT ->
          filtered_kernel_names_to_print self <> []) as Hfilter
    by (by rewrite Hlevel).
  assert (forall g', cpp_wrapper g' = true ->
            phase_lines config g' self true = [save_before; print_before]
            /\ phase_lines config g' self false = [save_after; print_after])
    as Hphase.
  { intros g' Hcpp'. unfold phase_lines, print_suppressed.
    rewrite !(decide_False (P := enable_debug_printer self = OFF)) by done.
    rewrite !(decide_False (P := enable_debug_printer self = SAVE))
      by (by rewrite Hlevel).
    rewrite !(decide_False (P := enable_debug_printer self = FILTERED_PRINT))
      by (by rewrite Hlevel).
    unfold save_lines, print_lines. rewrite Hcpp', Habi. done. }
  destruct (Hphase g Hcpp) as [Hin _].
  split; [done|]. split.
  - rewrite enter_returns by done. by rewrite Hin.
  - erewrite bind_return; [|by apply enter_returns].
    rewrite exit_returns by done.
    rewrite Hin. destruct (Hphase (with_lines (with_kernel_name g "k0")
                              [save_before; print_before]) Hcpp) as [_ Hout].
    change (kernel_name self) with "k0".
    rewrite Hout. by rewrite with_lines_app.
Qed.

Lemma default_print_scenario_witness :
  let config := configured true None in
  let g := fresh_graph true in
  let self := manager_for "2" config ["buf0"] "k0" (Some [TensorArg]) in
  let q := PyStr.dquote in
  let save_before :=
    "aoti_torch_save_tensor_handle(buf0, " +:+ q +:+ "buf0" +:+ q +:+ ", "
    +:+ q +:+ "before_launch" +:+ q +:+ ", " +:+ q +:+ "k0" +:+ q +:+ ");" in
  let print_before :=
    "aoti_torch_print_tensor_handle(buf0, " +:+ q
    +:+ "before_launch - k0 - buf0" +:+ q +:+ ");" in
  let save_after :=
    "aoti_torch_save_tensor_handle(buf0, " +:+ q +:+ "buf0" +:+ q +:+ ", "
    +:+ q +:+ "after_launch" +:+ q +:+ ", " +:+ q +:+ "k0" +:+ q +:+ ");" in
  let print_after :=
    "aoti_torch_print_tensor_handle(buf0, " +:+ q
    +:+ "after_launch - k0 - buf0" +:+ q +:+ ");" in
  enable_debug_printer self = DEFAULT_PRINT
  /\ __enter__ config self g
     = (with_lines (with_kernel_name g "k0") [save_before; print_before],
        Return tt)
  /\ (__enter__ config self;; __exit__ config self None) g
     = (with_lines (with_kernel_name g "k0")
          [save_before; print_before; save_after; print_after],
        Return tt).
Proof.
  apply (default_print_scenario {[ PRINTER_ENV_VAR := "2" ]}
           (configured true None) (fresh_graph true) OFF None "" None None
           None None).
  - apply lookup_singleton_eq.
  - reflexivity.
  - reflexivity.
Defined.

(** C3 as stated fails on the Python wrapper target: the same scenario
    appends two lines, the two print statements, and no save line. *)
Lemma default_print_scenario_python_wrapper :
  let config := configured true None in
  let self := manager_for "2" config ["buf0"] "k0" (Some [TensorArg]) in
  let run := (__enter__ config self;; __exit__ config self None)
               (fresh_graph false) in
  enable_debug_printer self = DEFAULT_PRINT
  /\ run.2 = Return tt
  /\ wrapper_code run.1
     = ["print('before_launch - k0 - buf0', buf0)";
        "print('after_launch - k0 - buf0', buf0)"]
  /\ length (wrapper_code run.1) = 2.
Proof. vm_compute. done. Qed.

(** ** Level FILTERED_PRINT *)

(** C1, amended: at FILTERED_PRINT level with an empty filter list, for
    every manager whose tag list, if any, has a tag for each watched
    argument: scope entry first records the kernel name and runs the
    save path, then raises AssertionError in the print path if at least
    one watched argument is tensor-typed, before any print line is
    appended; the save lines of the entry (one per tensor-typed argument
    on the ABI-compatible C++ wrapper target) are already in the buffer
    at that point.  With no tensor-typed argument entry returns
    normally. *)
Theorem filtered_print_empty_filter (config : Config)
    (self : DebugPrinterManager) (g : Graph) :
  enable_debug_printer self = FILTERED_PRINT ->
  filtered_kernel_names_to_print self = [] ->
  well_tagged self ->
  let k := kernel_name self in
  let saved :=
    if cpp_wrapper g && abi_compatible config then
      map (fun arg => save_line arg "before_launch" k) (tensor_typed_args self)
    else [] in
  __enter__ config self g
  = (with_lines (with_kernel_name g k) saved,
     match tensor_typed_args self with
     | [] => Return tt
     | _ :: _ => Raise AssertionError
     end)
  /\ List.filter is_print_line saved = [].
Proof.
  intros Hlevel Hempty Htags k saved.
  assert (enable_debug_printer self <> OFF) as Hon by (by rewrite Hlevel).
  assert (save_lines config g true k (tensor_typed_args self) = saved)
    as Hsaved by reflexivity.
  split; [|rewrite <- Hsaved; apply save_lines_no_print].
  unfold __enter__. rewrite decide_True by done.
  erewrite bind_return; [|reflexivity].
  destruct (tensor_typed_args self) as [|arg rest] eqn:Hargs.
  - rewrite phase_no_tensor by done. unfold saved.
    destruct (_ && _); by rewrite with_lines_nil.
  - rewrite phase_asserts; [|done| |done|done].
    + by rewrite Hargs.
    + by rewrite Hargs.
Qed.

Lemma filtered_print_empty_filter_witness :
  let config := configured true None in
  let self := manager_for "3" config ["n"; "buf0"] "k0"
                (Some [SizeArg; TensorArg]) in
  let g := fresh_graph true in
  __enter__ config self g
  = (with_lines (with_kernel_name g "k0")
       [save_line "buf0" "before_launch" "k0"],
     Raise AssertionError)
  /\ List.filter is_print_line [save_line "buf0" "before_launch" "k0"] = [].
Proof.
  apply (filtered_print_empty_filter (configured true None)
           (manager_for "3" (configured true None) ["n"; "buf0"] "k0"
              (Some [SizeArg; TensorArg]))
           (fresh_graph true)).
  - reflexivity.
  - reflexivity.
  - unfold well_tagged. simpl. lia.
Defined.

(** C1 as stated fails twice: with one watched argument on the
    ABI-compatible C++ wrapper target a save line is in the buffer when
    the assertion fails, and with an empty argument list entry does not
    raise at all. *)
Lemma filtered_print_empty_filter_saves_first :
  let config := configured true None in
  let self := manager_for "3" config ["buf0"] "k0" None in
  let idle := manager_for "3" config [] "k0" None in
  let g := fresh_graph true in
  enable_debug_printer self = FILTERED_PRINT
  /\ filtered_kernel_names_to_print self = []
  /\ (__enter__ config self g).2 = Raise AssertionError
  /\ wrapper_code (__enter__ config self g).1
     = [save_line "buf0" "before_launch" "k0"]
  /\ enable_debug_printer idle = FILTERED_PRINT
  /\ filtered_kernel_names_to_print idle = []
  /\ (__enter__ config idle g).2 = Return tt.
Proof. vm_compute. done. Qed.

(** C5, amended: on the ABI-compatible C++ wrapper target, at
    FILTERED_PRINT level with filter list [matmul_kernel], for every
    argument list whose tag list, if any, has a tag for each argument:
    with kernel name matmul_kernel, entry and exit each append the save
    lines and then the print lines of the tensor-typed arguments; with
    kernel name add_kernel they append the same save lines and no print
    line. *)
Theorem filtered_print_kernel_filter (config : Config)
    (self : DebugPrinterManager) (args : list string)
    (sigs : option (list ArgSignature)) (kernel' : option KernelRef)
    (exc : option Exception) (g : Graph) :
  enable_debug_printer self = FILTERED_PRINT ->
  filtered_kernel_names_to_print self = ["matmul_kernel"] ->
  signatures_cover sigs (length args) ->
  cpp_wrapper g = true ->
  abi_compatible config = true ->
  let matched := set_printer_args self args "matmul_kernel" sigs kernel' in
  let other := set_printer_args self args "add_kernel" sigs kernel' in
  let tensors := tensor_typed_from sigs 0 args in
  let saves prefix k := map (fun arg => save_line arg prefix k) tensors in
  let prints prefix k := map (fun arg => print_line_cpp arg prefix k) tensors in
  (__enter__ config matched;; __exit__ config matched exc) g
  = (with_lines (with_kernel_name g "matmul_kernel")
       (saves "before_launch" "matmul_kernel"
        ++ prints "before_launch" "matmul_kernel"
        ++ saves "after_launch" "matmul_kernel"
        ++ prints "after_launch" "matmul_kernel"),
     Return tt)
  /\ (__enter__ config other;; __exit__ config other exc) g
     = (with_lines (with_kernel_name g "add_kernel")
          (saves "before_launch" "add_kernel"
           ++ saves "after_launch" "add_kernel"),
        Return tt)
  /\ length (List.filter is_print_line
               (saves "before_launch" "matmul_kernel"
                ++ prints "before_launch" "matmul_kernel"
                ++ saves "after_launch" "matmul_kernel"
                ++ prints "after_launch" "matmul_kernel"))
     = 2 * length tensors
  /\ List.filter is_print_line
       (saves "before_launch" "add_kernel" ++ saves "after_launch" "add_kernel")
     = [].
Proof.
  intros Hlevel Hnames Hcover Hcpp Habi matched other tensors saves prints.
  assert (forall name, let m := set_printer_args self args name sigs kernel' in
            (__enter__ config m;; __exit__ config m exc) g
            = (with_lines (with_kernel_name g name)
                 (phase_lines config g m true ++ phase_lines config g m false),
               Return tt)) as Hrun.
  { intros name m.
    assert (enable_debug_printer m <> OFF) as Hon
      by (unfold m; simpl; by rewrite Hlevel).
    assert (enable_debug_printer m = FILTERED_PRINT ->
            filtered_kernel_names_to_print m <> []) as Hfilter
      by (unfold m; simpl; by rewrite Hnames).
    erewrite bind_return; [|by apply enter_returns].
    rewrite exit_returns by done. by rewrite with_lines_app. }
  assert (forall name bl,
            phase_lines config g (set_printer_args self args name sigs kernel') bl
            = saves (launch_prefix bl) name
              ++ (if bool_decide (name ∉ ["matmul_kernel"]) then []
                  else prints (launch_prefix bl) name)) as Hphase.
  { intros name bl. unfold phase_lines, print_suppressed.
    cbn [set_printer_args enable_debug_printer kernel_name
         filtered_kernel_names_to_print].
    rewrite (decide_False (P := enable_debug_printer self = OFF))
      by (by rewrite Hlevel).
    rewrite (decide_False (P := enable_debug_printer self = SAVE))
      by (by rewrite Hlevel).
    rewrite (decide_True (P := enable_debug_printer self = FILTERED_PRINT))
      by done.
    rewrite Hnames. unfold save_lines, print_lines. by rewrite Hcpp, Habi. }
  split; [|split; [|split]].
  - unfold matched. rewrite Hrun, !Hphase. cbn [launch_prefix].
    rewrite bool_decide_eq_false_2 by set_solver.
    by rewrite <- !app_assoc.
  - unfold other. rewrite Hrun, !Hphase. cbn [launch_prefix].
    rewrite bool_decide_eq_true_2; [by rewrite !app_nil_r|].
    intros Hin. apply list_elem_of_singleton in Hin. discriminate.
  - unfold saves, prints. rewrite !List.filter_app.
    rewrite !(filter_map_none is_print_line (fun arg => save_line arg _ _))
      by (intros a; apply save_line_not_print).
    rewrite !(filter_map_all is_print_line (fun arg => print_line_cpp arg _ _))
      by (intros a; apply print_line_cpp_is_print).
    simpl. rewrite length_app, !length_map. lia.
  - unfold saves. rewrite List.filter_app.
    by rewrite !(filter_map_none is_print_line (fun arg => save_line arg _ _))
      by (intros a; apply save_line_not_print).
Qed.

Lemma filtered_print_kernel_filter_witness :
  let config := configured true (Some "matmul_kernel") in
  let matched := manager_for "3" config ["buf0"; "n"] "matmul_kernel"
                   (Some [TensorArg; SizeArg]) in
  let other := manager_for "3" config ["buf0"; "n"] "add_kernel"
                 (Some [TensorArg; SizeArg]) in
  let g := fresh_graph true in
  (__enter__ config matched;; __exit__ config matched None) g
  = (with_lines (with_kernel_name g "matmul_kernel")
       [save_line "buf0" "before_launch" "matmul_kernel";
        print_line_cpp "buf0" "before_launch" "matmul_kernel";
        save_line "buf0" "after_launch" "matmul_kernel";
        print_line_cpp "buf0" "after_launch" "matmul_kernel"],
     Return tt)
  /\ (__enter__ config other;; __exit__ config other None) g
     = (with_lines (with_kernel_name g "add_kernel")
          [save_line "buf0" "before_launch" "add_kernel";
           save_line "buf0" "after_launch" "add_kernel"],
        Return tt).
Proof.
  destruct (filtered_print_kernel_filter
              (configured true (Some "matmul_kernel"))
              (manager_for "3" (configured true (Some "matmul_kernel"))
                 [] "" None)
              ["buf0"; "n"] (Some [TensorArg; SizeArg]) None None
              (fresh_graph true))
    as (Hmatched & Hother & _).
  - reflexivity.
  - reflexivity.
  - simpl. lia.
  - reflexivity.
  - reflexivity.
  - split; [exact Hmatched | exact Hother].
Defined.

(** C5 as stated fails on the C++ wrapper target without the
    ABI-compatible flag, where both paths are stubs: with one
    tensor-typed argument, kernel name matmul_kernel appends no print
    line and kernel name add_kernel appends no save line. *)
Lemma filtered_print_stub_target_appends_nothing :
  let config := configured false (Some "matmul_kernel") in
  let matched := manager_for "3" config ["buf0"] "matmul_kernel"
                   (Some [TensorArg]) in
  let other := manager_for "3" config ["buf0"] "add_kernel"
                 (Some [TensorArg]) in
  let g := fresh_graph true in
  enable_debug_printer matched = FILTERED_PRINT
  /\ filtered_kernel_names_to_print matched = ["matmul_kernel"]
  /\ tensor_typed_args matched = ["buf0"]
  /\ (__enter__ config matched;; __exit__ config matched None) g
     = (with_kernel_name g "matmul_kernel", Return tt)
  /\ wrapper_code
       ((__enter__ config matched;; __exit__ config matched None) g).1 = []
  /\ filtered_kernel_names_to_print other = ["matmul_kernel"]
  /\ wrapper_code
       ((__enter__ config other;; __exit__ config other None) g).1 = [].
Proof. vm_compute. done. Qed.

(** ** Letter case and the filter list *)

Lemma lower_char_idem c : PyStr.lower_char (PyStr.lower_char c) = PyStr.lower_char c.
Proof. destruct c as [[] [] [] [] [] [] [] []]; reflexivity. Qed.

Lemma isspace_lower_char c : PyStr.isspace (PyStr.lower_char c) = PyStr.isspace c.
Proof. destruct c as [[] [] [] [] [] [] [] []]; reflexivity. Qed.

Lemma lower_char_comma c :
  Ascii.eqb (PyStr.lower_char c) "," = Ascii.eqb c ",".
Proof. destruct c as [[] [] [] [] [] [] [] []]; reflexivity. Qed.

Lemma same_letter_lower a b :
  PyStr.same_letter a b -> PyStr.lower_char a = PyStr.lower_char b.
Proof.
  intros [-> | [[_ ->] | [_ ->]]]; [done| |]; by rewrite lower_char_idem.
Qed.

Lemma case_variant_lower s t :
  PyStr.case_variant s t -> PyStr.lower s = PyStr.lower t.
Proof.
  induction 1 as [|a b s t Hab _ IH]; simpl; [done|].
  by rewrite (same_letter_lower a b Hab), IH.
Qed.

Lemma lower_lstrip s : PyStr.lower (PyStr.lstrip s) = PyStr.lstrip (PyStr.lower s).
Proof.
  induction s as [|c rest IH]; simpl; [done|].
  rewrite isspace_lower_char. by destruct (PyStr.isspace c).
Qed.

Lemma lower_rstrip s : PyStr.lower (PyStr.rstrip s) = PyStr.rstrip (PyStr.lower s).
Proof.
  induction s as [|c rest IH]; simpl; [done|].
  rewrite <- IH, isspace_lower_char.
  destruct (PyStr.rstrip rest); simpl; [|done].
  by destruct (PyStr.isspace c).
Qed.

Lemma lower_strip s : PyStr.lower (PyStr.strip s) = PyStr.strip (PyStr.lower s).
Proof. unfold PyStr.strip. by rewrite lower_rstrip, lower_lstrip. Qed.

Lemma split_lower s :
  PyStr.split "," (PyStr.lower s) = map PyStr.lower (PyStr.split "," s).
Proof.
  induction s as [|c rest IH]; simpl; [done|].
  rewrite lower_char_comma, IH.
  destruct (Ascii.eqb c ","); simpl; [done|].
  by destruct (PyStr.split "," rest).
Qed.

(** The filter list holds the configured names, stripped and in lower
    case. *)
Lemma filter_list_of_names abi names :
  get_debug_filtered_kernel_names (configured abi (Some names))
  = map (fun name => PyStr.lower (PyStr.strip name)) (PyStr.split "," names).
Proof.
  unfold get_debug_filtered_kernel_names. simpl.
  rewrite split_lower, map_map. apply map_ext. intros name.
  by rewrite lower_strip.
Qed.

(** C4, amended: matching at FILTERED_PRINT level is insensitive to the
    letter case of the configured filter string: for every kernel name
    and every two configured strings that differ only in letter case,
    the constructed managers are equal and scope entry and exit emit the
    same lines.  A kernel name that is spelled in lower case matches iff
    it equals, under case-insensitive comparison, some configured name
    stripped of surrounding whitespace. *)
Theorem filter_case_insensitive_in_config (environ : gmap string string)
    (abi : bool) (names names' : string)
    (level_arg : IntermediateValueDebuggingLevel)
    (args_arg : option (list string)) (name_arg : string)
    (kernel_arg kernel' : option KernelRef)
    (sigs_arg sigs : option (list ArgSignature))
    (args : list string) (k : string) (exc : option Exception) (g : Graph) :
  PyStr.case_variant names names' ->
  let config := configured abi (Some names) in
  let config' := configured abi (Some names') in
  let self :=
    set_printer_args
      (__init__ environ config level_arg args_arg name_arg kernel_arg sigs_arg)
      args k sigs kernel' in
  let self' :=
    set_printer_args
      (__init__ environ config' level_arg args_arg name_arg kernel_arg sigs_arg)
      args k sigs kernel' in
  self' = self
  /\ __enter__ config' self' g = __enter__ config self g
  /\ __exit__ config' self' exc g = __exit__ config self exc g
  /\ (PyStr.lower k = k ->
      (k ∈ filtered_kernel_names_to_print self
       <-> exists name, name ∈ PyStr.split "," names
                        /\ PyStr.caseless_eq (PyStr.strip name) k)).
Proof.
  intros Hcase config config' self self'.
  assert (self' = self) as Hself.
  { unfold self, self', set_printer_args, __init__. simpl. f_equal.
    unfold get_debug_filtered_kernel_names. simpl.
    by rewrite (case_variant_lower _ _ Hcase). }
  split; [done|]. rewrite Hself.
  split; [reflexivity|]. split; [reflexivity|].
  intros Hk.
  change (filtered_kernel_names_to_print self)
    with (get_debug_filtered_kernel_names (configured abi (Some names))).
  rewrite filter_list_of_names, list_elem_of_fmap.
  unfold PyStr.caseless_eq. split.
  - intros (name & -> & Hin). exists name. split; [done|].
    by rewrite lower_strip, <- lower_strip, Hk.
  - intros (name & Hin & Heq). exists name. split; [|done].
    by rewrite Heq.
Qed.

Ltac solve_case_variant :=
  repeat first
    [ apply PyStr.cv_empty
    | apply PyStr.cv_char;
      [ first [ left; reflexivity
              | right; left; split; reflexivity
              | right; right; split; reflexivity ] | ] ].

Lemma filter_case_insensitive_in_config_witness :
  let names := "MatMul_Kernel, add" in
  let names' := "matmul_KERNEL, Add" in
  let config := configured false (Some names) in
  let config' := configured false (Some names') in
  let self := manager_for "3" config ["buf0"] "add" None in
  let self' := manager_for "3" config' ["buf0"] "add" None in
  let g := fresh_graph false in
  self' = self
  /\ __enter__ config' self' g = __enter__ config self g
  /\ __exit__ config' self' None g = __exit__ config self None g
  /\ "add" ∈ filtered_kernel_names_to_print self.
Proof.
  destruct (filter_case_insensitive_in_config {[ PRINTER_ENV_VAR := "3" ]}
              false "MatMul_Kernel, add" "matmul_KERNEL, Add" OFF None "" None
              None None None ["buf0"] "add" None (fresh_graph false))
    as (Hself & Henter & Hexit & Hmatch).
  - solve_case_variant.
  - split; [exact Hself|]. split; [exact Henter|]. split; [exact Hexit|].
    apply Hmatch; [reflexivity|].
    exists " add". split; [|reflexivity].
    vm_compute. apply list_elem_of_further, list_elem_of_here.
Defined.

(** C4 as stated fails for the letter case of the kernel name: with the
    configured name MatMul_Kernel, the kernel named MatMul_Kernel gets no
    print line, the kernel named matmul_kernel gets one. *)
Lemma kernel_name_case_changes_printing :
  let config := configured true (Some "MatMul_Kernel") in
  let mixed := manager_for "3" config ["buf0"] "MatMul_Kernel" None in
  let lowered := manager_for "3" config ["buf0"] "matmul_kernel" None in
  let g := fresh_graph false in
  PyStr.caseless_eq (kernel_name mixed) "MatMul_Kernel"
  /\ PyStr.caseless_eq (kernel_name lowered) "MatMul_Kernel"
  /\ enable_debug_printer mixed = FILTERED_PRINT
  /\ __enter__ config mixed g = (with_kernel_name g "MatMul_Kernel", Return tt)
  /\ wrapper_code (__enter__ config mixed g).1 = []
  /\ wrapper_code (__enter__ config lowered g).1
     = ["print('before_launch - matmul_kernel - buf0', buf0)"].
Proof. vm_compute. done. Qed.

(** ** Scopes *)

(** Past the end of an installed tag list the save loop raises. *)
Lemma save_loop_uncovered config k bl tags args : forall i g,
  i <= length tags -> length tags < i + length args ->
  exists g', for_enumerate (save_iteration config k bl (Some tags)) i args g
             = (g', Raise IndexError).
Proof.
  induction args as [|arg rest IH]; intros i g Hlow Hhigh;
    [simpl in Hhigh; lia|].
  cbn [for_enumerate]. simpl in Hhigh.
  destruct (decide (i = length tags)) as [->|Hne].
  - exists g. apply bind_raise. unfold save_iteration.
    apply bind_raise. by apply is_not_tensor_arg_uncovered.
  - erewrite bind_return; last first.
    { apply save_iteration_returns. simpl. lia. }
    apply IH; lia.
Qed.

(** What a normal return of scope entry tells about the manager. *)
Lemma enter_return_inv config self g g1 :
  __enter__ config self g = (g1, Return tt) ->
  enable_debug_printer self = OFF
  \/ (enable_debug_printer self <> OFF
      /\ well_tagged self
      /\ ((enable_debug_printer self = FILTERED_PRINT ->
           filtered_kernel_names_to_print self <> [])
          \/ tensor_typed_args self = [])).
Proof.
  intros Henter.
  destruct (decide (enable_debug_printer self = OFF)) as [Hoff|Hon]; [by left|].
  right. split; [done|].
  assert (well_tagged self) as Htags.
  { unfold well_tagged. destruct (arg_signatures self) as [tags|] eqn:Hsigs;
      [|done]. simpl.
    destruct (decide (length (args_to_print_or_save self) <= length tags))
      as [|Hshort]; [done|exfalso].
    unfold __enter__ in Henter. rewrite decide_True in Henter by done.
    erewrite bind_return in Henter; [|reflexivity].
    destruct (save_loop_uncovered config (kernel_name self) true tags
                (args_to_print_or_save self) 0
                (with_kernel_name g (kernel_name self))) as [g' Hraise];
      [lia|lia|].
    erewrite bind_raise in Henter; [done|].
    unfold codegen_intermediate_tensor_value_save. rewrite Hsigs.
    exact Hraise. }
  split; [done|].
  destruct (tensor_typed_args self) as [|arg rest] eqn:Hargs; [by right|].
  left. intros Hlevel Hempty.
  unfold __enter__ in Henter. rewrite decide_True in Henter by done.
  erewrite bind_return in Henter; [|reflexivity].
  rewrite phase_asserts in Henter; [done|done| |done|done].
  by rewrite Hargs.
Qed.

Lemma phase_lines_no_tensor config g self bl :
  tensor_typed_args self = [] -> phase_lines config g self bl = [].
Proof.
  intros Hnone. unfold phase_lines.
  rewrite Hnone, save_lines_nil, print_lines_nil.
  destruct (decide _); [done|]. destruct (decide _); [done|].
  by destruct (print_suppressed _ _).
Qed.

(** After an entry that returned, exit returns as well, on any graph. *)
Lemma exit_after_enter config self g g1 exc g2 :
  __enter__ config self g = (g1, Return tt) ->
  __exit__ config self exc g2
  = (with_lines g2 (phase_lines config g2 self false), Return tt).
Proof.
  intros Henter.
  destruct (enter_return_inv config self g g1 Henter)
    as [Hoff | (Hon & Htags & [Hfilter | Hnone])].
  - rewrite exit_off by done. unfold phase_lines.
    rewrite decide_True by done. by rewrite with_lines_nil.
  - by apply exit_returns.
  - rewrite phase_lines_no_tensor, with_lines_nil by done.
    unfold __exit__. rewrite decide_True by done.
    by apply phase_no_tensor.
Qed.

Lemma enter_lines config self g g1 :
  __enter__ config self g = (g1, Return tt) ->
  wrapper_code g1 = wrapper_code g ++ phase_lines config g self true.
Proof.
  intros Henter.
  destruct (enter_return_inv config self g g1 Henter)
    as [Hoff | (Hon & Htags & [Hfilter | Hnone])].
  - rewrite enter_off in Henter by done. injection Henter as <-.
    unfold phase_lines. rewrite decide_True by done. by rewrite app_nil_r.
  - rewrite enter_returns in Henter by done. by injection Henter as <-.
  - rewrite phase_lines_no_tensor, app_nil_r by done.
    unfold __enter__ in Henter. rewrite decide_True in Henter by done.
    erewrite bind_return in Henter; [|reflexivity].
    rewrite phase_no_tensor in Henter by done. by injection Henter as <-.
Qed.

Lemma phase_lines_length config g g' self bl bl' :
  cpp_wrapper g' = cpp_wrapper g ->
  length (phase_lines config g' self bl') = length (phase_lines config g self bl).
Proof.
  intros Hcpp. unfold phase_lines, save_lines, print_lines. rewrite Hcpp.
  destruct (decide _); [done|].
  destruct (cpp_wrapper g), (abi_compatible config),
    (decide (enable_debug_printer self = SAVE));
    try destruct (print_suppressed self (kernel_name self));
    simpl; by rewrite ?length_app, ?length_map.
Qed.

(** C8, amended: for every manager, graph and bracketed code, when scope
    entry returns normally the scope runs exit after the bracketed code
    whether that code returned or raised: the after_launch lines of exit
    are appended to the buffer the bracketed code left, the outcome of
    the bracketed code (its value or its exception) is the outcome of
    the scope, and on an unchanged target the after_launch lines are as
    many as the before_launch lines that entry appended. *)
Theorem scope_exit_runs_after_body {A : Type} (config : Config)
    (self : DebugPrinterManager) (body : M A) (g g1 g2 : Graph)
    (r : Outcome A) :
  __enter__ config self g = (g1, Return tt) ->
  body g1 = (g2, r) ->
  with_manager config self body g
  = (with_lines g2 (phase_lines config g2 self false), r)
  /\ wrapper_code g1 = wrapper_code g ++ phase_lines config g self true
  /\ (cpp_wrapper g2 = cpp_wrapper g ->
      length (phase_lines config g2 self false)
      = length (phase_lines config g self true)).
Proof.
  intros Henter Hbody. split; [|split].
  - unfold with_manager. rewrite Henter, Hbody.
    destruct r as [a|e];
      by rewrite (exit_after_enter config self g g1 _ g2 Henter).
  - by apply (enter_lines config self g g1).
  - intros Hcpp. by apply phase_lines_length.
Qed.

Lemma scope_exit_runs_after_body_witness :
  let config := configured true None in
  let self := manager_for "2" config ["buf0"] "k0" None in
  let body : M unit :=
    writeline "k0(buf0);";; raise (OtherException "RuntimeError") in
  let g := fresh_graph true in
  let g1 := (__enter__ config self g).1 in
  let g2 := (body g1).1 in
  with_manager config self body g
  = (with_lines g2 (phase_lines config g2 self false),
     Raise (OtherException "RuntimeError"))
  /\ wrapper_code g1 = wrapper_code g ++ phase_lines config g self true
  /\ (cpp_wrapper g2 = cpp_wrapper g ->
      length (phase_lines config g2 self false)
      = length (phase_lines config g self true)).
Proof.
  apply (scope_exit_runs_after_body (configured true None)
           (manager_for "2" (configured true None) ["buf0"] "k0" None)
           (writeline "k0(buf0);";; raise (OtherException "RuntimeError"))
           (fresh_graph true)).
  - vm_compute. reflexivity.
  - vm_compute. reflexivity.
Defined.

(** C8 as stated fails when entry itself raises: at FILTERED_PRINT level
    with an empty filter list on the ABI-compatible C++ wrapper target,
    entry appends the before_launch save line and then fails its
    assertion, so no scope is opened and no after_launch line follows. *)
Lemma failed_entry_leaves_unmatched_line :
  let config := configured true None in
  let self := manager_for "3" config ["buf0"] "k0" None in
  let run := with_manager config self (writeline "k0(buf0);")
               (fresh_graph true) in
  enable_debug_printer self <> OFF
  /\ run.2 = Raise AssertionError
  /\ wrapper_code run.1 = [save_line "buf0" "before_launch" "k0"].
Proof. vm_compute. split; [discriminate|done]. Qed.

(** * Further properties of the module *)

(** ** Exact matching of the level variable *)

(** X1: the resolver compares the value of the variable with the three
    one-character strings exactly: a level other than OFF is returned
    only for the value 1, 2 or 3 as it stands, so a padded or spelled-out
    value resolves to OFF. *)
Theorem level_resolution_exact (environ : gmap string string) :
  (aot_inductor_debug_intermediate_tensor_value_level environ = SAVE
   <-> environ !! PRINTER_ENV_VAR = Some "1")
  /\ (aot_inductor_debug_intermediate_tensor_value_level environ = DEFAULT_PRINT
      <-> environ !! PRINTER_ENV_VAR = Some "2")
  /\ (aot_inductor_debug_intermediate_tensor_value_level environ = FILTERED_PRINT
      <-> environ !! PRINTER_ENV_VAR = Some "3")
  /\ (aot_inductor_debug_intermediate_tensor_value_level environ = OFF
      <-> environ !! PRINTER_ENV_VAR <> Some "1"
          /\ environ !! PRINTER_ENV_VAR <> Some "2"
          /\ environ !! PRINTER_ENV_VAR <> Some "3").
Proof.
  unfold aot_inductor_debug_intermediate_tensor_value_level, environ_get.
  destruct (environ !! PRINTER_ENV_VAR) as [v|]; simpl; [|by repeat split].
  destruct (String.eqb v "1") eqn:H1.
  { apply String.eqb_eq in H1. subst v. simpl.
    repeat split; try done. by intros (? & _). }
  destruct (String.eqb v "2") eqn:H2.
  { apply String.eqb_eq in H2. subst v. simpl.
    repeat split; try done. by intros (_ & ? & _). }
  destruct (String.eqb v "3") eqn:H3.
  { apply String.eqb_eq in H3. subst v. simpl.
    repeat split; try done. by intros (_ & _ & ?). }
  apply String.eqb_neq in H1, H2, H3.
  repeat split; try done; intros [= ->]; done.
Qed.

(** ** Frame of scope entry and exit *)

Lemma writes_ret {A} (a : A) : writes_only (mret a : M A).
Proof. intros g. exists []. by rewrite with_lines_nil. Qed.

Lemma writes_raise {A} e : writes_only (raise e : M A).
Proof. intros g. exists []. by rewrite with_lines_nil. Qed.

Lemma writes_bind {A B} (m : M A) (k : A -> M B) :
  writes_only m -> (forall a, writes_only (k a)) -> writes_only (m ≫= k).
Proof.
  intros Hm Hk g. destruct (Hm g) as (l1 & Hg1 & Hl1).
  unfold mbind, M_bind. destruct (m g) as [g' [a|e]]; simpl in *.
  - destruct (Hk a g') as (l2 & Hg2 & Hl2). exists (l1 ++ l2).
    rewrite Hg2, Hg1, with_lines_app. split; [done|]. by apply Forall_app.
  - by exists l1.
Qed.

Lemma writes_writeline line :
  emitted_line line = true -> writes_only (writeline line).
Proof. intros Hline g. exists [line]. split; [done|]. by constructor. Qed.

Lemma writes_is_not_tensor_arg sigs i : writes_only (is_not_tensor_arg sigs i).
Proof.
  destruct sigs as [tags|]; simpl; [|apply writes_ret].
  destruct (tags !! i); [apply writes_ret | apply writes_raise].
Qed.

Lemma writes_get_cpp_wrapper : writes_only get_cpp_wrapper.
Proof. intros g. exists []. by rewrite with_lines_nil. Qed.

Lemma writes_for_enumerate {A} (body : nat -> A -> M unit) xs :
  (forall i x, writes_only (body i x)) ->
  forall i, writes_only (for_enumerate body i xs).
Proof.
  intros Hbody. induction xs as [|x rest IH]; intros i; simpl.
  - apply writes_ret.
  - apply writes_bind; [apply Hbody|]. intros _. apply IH.
Qed.

Lemma writes_save config self args k bl sigs :
  writes_only (codegen_intermediate_tensor_value_save config self args k bl sigs).
Proof.
  apply writes_for_enumerate. intros i arg. unfold save_iteration.
  apply writes_bind; [apply writes_is_not_tensor_arg|].
  intros [|]; [apply writes_ret|].
  apply writes_bind; [apply writes_get_cpp_wrapper|].
  intros [|]; [|apply writes_ret].
  destruct (abi_compatible config); [|apply writes_ret].
  by apply writes_writeline.
Qed.

Lemma writes_printer config self args k bl sigs :
  writes_only
    (codegen_intermediate_tensor_value_printer config self args k bl sigs).
Proof.
  apply writes_for_enumerate. intros i arg. unfold printer_iteration.
  apply writes_bind; [apply writes_is_not_tensor_arg|].
  intros [|]; [apply writes_ret|].
  apply writes_bind.
  { destruct (decide _); [|apply writes_ret].
    apply writes_bind; [|intros _; apply writes_ret].
    unfold assert. destruct (0 <? _); [apply writes_ret | apply writes_raise]. }
  intros [|]; [apply writes_ret|].
  apply writes_bind; [apply writes_get_cpp_wrapper|].
  intros [|]; [|by apply writes_writeline].
  destruct (abi_compatible config); [|apply writes_ret].
  by apply writes_writeline.
Qed.

Lemma writes_phase config self bl :
  writes_only
    (codegen_intermediate_tensor_value_save config self
       (args_to_print_or_save self) (kernel_name self) bl (arg_signatures self);;
     if decide (enable_debug_printer self <> SAVE) then
       codegen_intermediate_tensor_value_printer config self
         (args_to_print_or_save self) (kernel_name self) bl
         (arg_signatures self)
     else mret tt).
Proof.
  apply writes_bind; [apply writes_save|]. intros _.
  destruct (decide _); [apply writes_printer | apply writes_ret].
Qed.

(** X7: scope exit, whatever its outcome (normal return, IndexError or
    AssertionError), changes the graph only by appending lines of the
    three generated formats to the code buffer: it never removes or
    rewrites a line already there and never touches the kernel-name
    registry or the target flag. *)
Theorem exit_only_appends (config : Config) (self : DebugPrinterManager)
    (exc : option Exception) (g : Graph) :
  exists lines,
    (__exit__ config self exc g).1 = with_lines g lines
    /\ Forall (fun line => emitted_line line = true) lines
    /\ wrapper_code g `prefix_of` wrapper_code (__exit__ config self exc g).1
    /\ all_codegen_kernel_names (__exit__ config self exc g).1
       = all_codegen_kernel_names g
    /\ cpp_wrapper (__exit__ config self exc g).1 = cpp_wrapper g.
Proof.
  assert (writes_only (__exit__ config self exc)) as Hw.
  { unfold __exit__. destruct (decide _); [apply writes_phase|apply writes_ret]. }
  destruct (Hw g) as (lines & Hg & Hlines). exists lines.
  rewrite Hg. repeat split; try done. by exists lines.
Qed.

(** X8: scope entry, whatever its outcome, changes the graph only by adding
    the kernel name to the registry (at a level other than OFF) and by
    appending lines of the three generated formats to the code buffer. *)
Theorem enter_only_registers_and_appends (config : Config)
    (self : DebugPrinterManager) (g : Graph) :
  exists lines,
    (__enter__ config self g).1
    = with_lines
        (if decide (enable_debug_printer self = OFF) then g
         else with_kernel_name g (kernel_name self)) lines
    /\ Forall (fun line => emitted_line line = true) lines
    /\ wrapper_code g `prefix_of` wrapper_code (__enter__ config self g).1
    /\ all_codegen_kernel_names g ⊆ all_codegen_kernel_names (__enter__ config self g).1
    /\ cpp_wrapper (__enter__ config self g).1 = cpp_wrapper g.
Proof.
  destruct (decide (enable_debug_printer self = OFF)) as [Hoff|Hon].
  - rewrite enter_off by done. exists []. rewrite with_lines_nil.
    repeat split; done.
  - unfold __enter__. rewrite decide_True by done.
    erewrite bind_return; [|reflexivity]. cbv beta.
    destruct (writes_phase config self true
                (with_kernel_name g (kernel_name self)))
      as (lines & Hg & Hlines).
    unfold with_kernel_name in Hg |- *.
    exists lines. rewrite Hg. repeat split; try done.
    + by exists lines.
    + simpl. apply union_subseteq_r.
Qed.

(** ** Shape of the filter list *)

Lemma split_length sep s :
  length (PyStr.split sep s) = S (count_char sep s).
Proof.
  induction s as [|c rest IH]; simpl; [done|].
  destruct (Ascii.eqb c sep); simpl; [by rewrite IH|].
  destruct (PyStr.split sep rest); simpl in *; lia.
Qed.

Lemma split_fields_no_sep sep s :
  Forall (fun field => has_char sep field = false) (PyStr.split sep s).
Proof.
  induction s as [|c rest IH]; simpl; [by repeat constructor|].
  destruct (Ascii.eqb c sep) eqn:Hc; [by constructor|].
  destruct (PyStr.split sep rest) as [|field fields].
  - repeat constructor. simpl. by rewrite Hc.
  - inversion IH as [|? ? Hfield Hfields]; subst.
    constructor; [|done]. simpl. by rewrite Hc.
Qed.

Lemma count_char_lower s :
  count_char "," (PyStr.lower s) = count_char "," s.
Proof.
  induction s as [|c rest IH]; simpl; [done|].
  by rewrite lower_char_comma, IH.
Qed.

Lemma lower_idem s : PyStr.lower (PyStr.lower s) = PyStr.lower s.
Proof.
  induction s as [|c rest IH]; simpl; [done|].
  by rewrite lower_char_idem, IH.
Qed.

Lemma has_char_lstrip c s :
  has_char c s = false -> has_char c (PyStr.lstrip s) = false.
Proof.
  induction s as [|a rest IH]; simpl; [done|].
  intros [Ha Hrest]%orb_false_iff.
  destruct (PyStr.isspace a); [by apply IH|]. simpl. by rewrite Ha, Hrest.
Qed.

Lemma has_char_rstrip c s :
  has_char c s = false -> has_char c (PyStr.rstrip s) = false.
Proof.
  induction s as [|a rest IH]; simpl; [done|].
  intros [Ha Hrest]%orb_false_iff. specialize (IH Hrest).
  destruct (PyStr.rstrip rest) as [|b kept].
  - destruct (PyStr.isspace a); simpl; [done|]. by rewrite Ha.
  - simpl in *. by rewrite Ha, IH.
Qed.

Lemma rstrip_idem s : PyStr.rstrip (PyStr.rstrip s) = PyStr.rstrip s.
Proof.
  induction s as [|a rest IH]; simpl; [done|].
  destruct (PyStr.rstrip rest) as [|b kept] eqn:Hrest.
  - destruct (PyStr.isspace a) eqn:Ha; simpl; [done|]. by rewrite Ha.
  - change (PyStr.rstrip (String a (String b kept)))
      with (match PyStr.rstrip (String b kept) with
            | EmptyString =>
                if PyStr.isspace a then EmptyString else String a EmptyString
            | kept' => String a kept'
            end).
    by rewrite IH.
Qed.

Lemma lstrip_head s :
  PyStr.lstrip s = EmptyString
  \/ exists c rest, PyStr.lstrip s = String c rest /\ PyStr.isspace c = false.
Proof.
  induction s as [|a rest IH]; simpl; [by left|].
  destruct (PyStr.isspace a) eqn:Ha; [done|]. right. by exists a, rest.
Qed.

Lemma rstrip_keeps_head c rest :
  PyStr.isspace c = false ->
  PyStr.rstrip (String c rest) = String c (PyStr.rstrip rest).
Proof.
  intros Hc. simpl. destruct (PyStr.rstrip rest); [by rewrite Hc|done].
Qed.

Lemma strip_idem s : PyStr.strip (PyStr.strip s) = PyStr.strip s.
Proof.
  unfold PyStr.strip.
  destruct (lstrip_head s) as [-> | (c & rest & -> & Hc)]; [done|].
  rewrite rstrip_keeps_head by done. simpl. rewrite Hc.
  rewrite <- (rstrip_keeps_head c rest Hc). apply rstrip_idem.
Qed.

(** X2: the filter list has one entry per comma-separated field of the
    configured string: one more than the number of commas, so it is
    empty only when the option is unset, and a configured empty string
    yields the one-entry list of the empty name. *)
Theorem filter_list_length (config : Config) :
  length (get_debug_filtered_kernel_names config)
  = match filtered_kernel_names (aot_inductor config) with
    | None => 0
    | Some names => S (count_char "," names)
    end.
Proof.
  unfold get_debug_filtered_kernel_names.
  destruct (filtered_kernel_names (aot_inductor config)) as [names|]; [|done].
  by rewrite length_map, split_length, count_char_lower.
Qed.

(** X3: every entry of the filter list is normalised: it is in lower case,
    has no surrounding whitespace and contains no comma. *)
Theorem filter_list_normalised (config : Config) :
  Forall
    (fun name =>
       PyStr.lower name = name
       /\ PyStr.strip name = name
       /\ has_char "," name = false)
    (get_debug_filtered_kernel_names config).
Proof.
  unfold get_debug_filtered_kernel_names.
  destruct (filtered_kernel_names (aot_inductor config)) as [names|];
    [|constructor].
  apply Forall_forall. intros name Hin.
  apply list_elem_of_fmap in Hin as (field & -> & Hfield).
  split; [|split].
  - rewrite split_lower in Hfield.
    apply list_elem_of_fmap in Hfield as (raw & -> & _).
    by rewrite lower_strip, lower_idem.
  - apply strip_idem.
  - pose proof (split_fields_no_sep "," (PyStr.lower names)) as Hsep.
    rewrite Forall_forall in Hsep. specialize (Hsep field Hfield).
    by apply has_char_rstrip, has_char_lstrip.
Qed.

(** X4: when the filter option is configured, even as the empty string, the
    constructed manager never fails the FILTERED_PRINT assertion: for
    every level, target and argument list with a tag for each argument,
    scope entry and scope exit return normally. *)
Theorem configured_filter_never_asserts (environ : gmap string string)
    (config : Config) (names : string)
    (level_arg : IntermediateValueDebuggingLevel)
    (args_arg : option (list string)) (name_arg : string)
    (kernel_arg kernel' : option KernelRef)
    (sigs_arg sigs : option (list ArgSignature))
    (args : list string) (k : string) (exc : option Exception) (g : Graph) :
  filtered_kernel_names (aot_inductor config) = Some names ->
  signatures_cover sigs (length args) ->
  let self :=
    set_printer_args
      (__init__ environ config level_arg args_arg name_arg kernel_arg sigs_arg)
      args k sigs kernel' in
  filtered_kernel_names_to_print self <> []
  /\ (__enter__ config self g).2 = Return tt
  /\ (__exit__ config self exc g).2 = Return tt.
Proof.
  intros Hnames Hcover self.
  assert (filtered_kernel_names_to_print self <> []) as Hfilter.
  { intros Hnil. apply (f_equal length) in Hnil.
    change (filtered_kernel_names_to_print self)
      with (get_debug_filtered_kernel_names config) in Hnil.
    rewrite filter_list_length, Hnames in Hnil. done. }
  split; [done|].
  destruct (decide (enable_debug_printer self = OFF)) as [Hoff|Hon].
  - by rewrite enter_off, exit_off.
  - by rewrite enter_returns, exit_returns.
Qed.

Lemma configured_filter_never_asserts_witness :
  let config := configured true (Some "") in
  let self := manager_for "3" config ["buf0"] "k0" (Some [TensorArg]) in
  filtered_kernel_names_to_print self <> []
  /\ (__enter__ config self (fresh_graph true)).2 = Return tt
  /\ (__exit__ config self None (fresh_graph true)).2 = Return tt.
Proof.
  apply (configured_filter_never_asserts {[ PRINTER_ENV_VAR := "3" ]}
           (configured true (Some "")) "" OFF None "" None None None
           (Some [TensorArg]) ["buf0"] "k0" None (fresh_graph true)).
  - reflexivity.
  - simpl. lia.
Defined.

(** ** Outcomes of a scope phase *)

Lemma save_loop_uncovered_exact config k bl tags args : forall i g,
  i <= length tags -> length tags < i + length args ->
  for_enumerate (save_iteration config k bl (Some tags)) i args g
  = (with_lines g
       (save_lines config g bl k
          (tensor_typed_from (Some tags) i (take (length tags - i) args))),
     Raise IndexError).
Proof.
  induction args as [|arg rest IH]; intros i g Hlow Hhigh;
    [simpl in Hhigh; lia|].
  cbn [for_enumerate]. simpl in Hhigh.
  destruct (decide (i = length tags)) as [->|Hne].
  - rewrite Nat.sub_diag. cbn [take tensor_typed_from].
    rewrite save_lines_nil, with_lines_nil.
    apply bind_raise. unfold save_iteration.
    apply bind_raise. by apply is_not_tensor_arg_uncovered.
  - erewrite bind_return; last first.
    { apply save_iteration_returns. simpl. lia. }
    rewrite IH by lia.
    replace (length tags - i) with (S (length tags - S i)) by lia.
    cbn [take]. rewrite tensor_typed_from_cons, save_lines_app, with_lines_app.
    reflexivity.
Qed.

Lemma phase_uncovered config self bl tags g :
  arg_signatures self = Some tags ->
  length tags < length (args_to_print_or_save self) ->
  (codegen_intermediate_tensor_value_save config self
     (args_to_print_or_save self) (kernel_name self) bl (arg_signatures self);;
   if decide (enable_debug_printer self <> SAVE) then
     codegen_intermediate_tensor_value_printer config self
       (args_to_print_or_save self) (kernel_name self) bl (arg_signatures self)
   else mret tt) g
  = (with_lines g
       (save_lines config g bl (kernel_name self)
          (tensor_typed_from (Some tags) 0
             (take (length tags) (args_to_print_or_save self)))),
     Raise IndexError).
Proof.
  intros Hsigs Hshort. erewrite bind_raise; [done|].
  unfold codegen_intermediate_tensor_value_save. rewrite Hsigs.
  rewrite save_loop_uncovered_exact by lia. by rewrite Nat.sub_0_r.
Qed.

(** X6: with a tag list shorter than the argument list, scope entry at any
    level other than OFF raises IndexError out of the save path: the
    kernel name is already registered, the save lines of the
    tensor-typed arguments that do have a tag are already appended, and
    no print line is. *)
Theorem short_tag_list_raises (config : Config) (self : DebugPrinterManager)
    (tags : list ArgSignature) (g : Graph) :
  enable_debug_printer self <> OFF ->
  arg_signatures self = Some tags ->
  length tags < length (args_to_print_or_save self) ->
  let k := kernel_name self in
  let tagged := take (length tags) (args_to_print_or_save self) in
  let saved := save_lines config g true k (tensor_typed_from (Some tags) 0 tagged) in
  __enter__ config self g
  = (with_lines (with_kernel_name g k) saved, Raise IndexError)
  /\ List.filter is_print_line saved = [].
Proof.
  intros Hon Hsigs Hshort k tagged saved. split; [|apply save_lines_no_print].
  unfold __enter__. rewrite decide_True by done.
  erewrite bind_return; [|reflexivity].
  by rewrite (phase_uncovered config self true tags).
Qed.

Lemma short_tag_list_raises_witness :
  let config := configured true None in
  let self := manager_for "1" config ["buf0"; "n"; "buf1"] "k0"
                (Some [TensorArg; SizeArg]) in
  let g := fresh_graph true in
  __enter__ config self g
  = (with_lines (with_kernel_name g "k0")
       [save_line "buf0" "before_launch" "k0"],
     Raise IndexError)
  /\ List.filter is_print_line [save_line "buf0" "before_launch" "k0"] = [].
Proof.
  apply (short_tag_list_raises (configured true None)
           (manager_for "1" (configured true None) ["buf0"; "n"; "buf1"] "k0"
              (Some [TensorArg; SizeArg]))
           [TensorArg; SizeArg] (fresh_graph true)).
  - vm_compute. discriminate.
  - reflexivity.
  - simpl. lia.
Defined.

Lemma tags_short_false self : tags_short self = false -> well_tagged self.
Proof.
  unfold tags_short, well_tagged.
  destruct (arg_signatures self) as [tags|]; simpl; [|done].
  intros Hlt%Nat.ltb_ge. done.
Qed.

Lemma phase_outcome config self bl g :
  enable_debug_printer self <> OFF ->
  ((codegen_intermediate_tensor_value_save config self
      (args_to_print_or_save self) (kernel_name self) bl (arg_signatures self);;
    if decide (enable_debug_printer self <> SAVE) then
      codegen_intermediate_tensor_value_printer config self
        (args_to_print_or_save self) (kernel_name self) bl (arg_signatures self)
    else mret tt) g).2
  = scope_outcome self.
Proof.
  intros Hon. unfold scope_outcome.
  rewrite (decide_False (P := enable_debug_printer self = OFF)) by done.
  destruct (tags_short self) eqn:Hshort.
  - unfold tags_short in Hshort.
    destruct (arg_signatures self) as [tags|] eqn:Hsigs; [|done].
    apply Nat.ltb_lt in Hshort.
    pose proof (phase_uncovered config self bl tags g Hsigs Hshort) as Hraise.
    rewrite Hsigs in Hraise. by rewrite Hraise.
  - apply tags_short_false in Hshort.
    destruct (decide (enable_debug_printer self = FILTERED_PRINT)) as [Hl|Hl].
    + destruct (filtered_kernel_names_to_print self) as [|name names] eqn:Hf.
      * destruct (tensor_typed_args self) as [|arg rest] eqn:Hargs.
        -- by rewrite phase_no_tensor.
        -- rewrite phase_asserts; [done|done| |done|done]. by rewrite Hargs.
      * rewrite phase_returns; [done|done|done|]. by rewrite Hf.
    + by rewrite phase_returns.
Qed.

(** X5: the outcome of scope entry and of scope exit is decided by the
    manager alone, the same for both and for every graph and target:
    a normal return at OFF; otherwise IndexError when the tag list is
    shorter than the argument list; otherwise AssertionError at
    FILTERED_PRINT with an empty filter list and at least one
    tensor-typed argument; a normal return in every other case. *)
Theorem scope_outcome_decided_by_manager (config : Config)
    (self : DebugPrinterManager) (exc : option Exception) (g : Graph) :
  (__enter__ config self g).2 = scope_outcome self
  /\ (__exit__ config self exc g).2 = scope_outcome self.
Proof.
  destruct (decide (enable_debug_printer self = OFF)) as [Hoff|Hon].
  - rewrite enter_off, exit_off by done.
    unfold scope_outcome. by rewrite decide_True.
  - split.
    + unfold __enter__. rewrite decide_True by done.
      erewrite bind_return; [|reflexivity]. by apply phase_outcome.
    + unfold __exit__. rewrite decide_True by done. by apply phase_outcome.
Qed.

(** ** FILTERED_PRINT against the other levels *)

Lemma tags_short_true self :
  tags_short self = true ->
  exists tags, arg_signatures self = Some tags
               /\ length tags < length (args_to_print_or_save self).
Proof.
  unfold tags_short. destruct (arg_signatures self) as [tags|]; [|done].
  intros Hlt%Nat.ltb_lt. by exists tags.
Qed.

Lemma enter_on config self g :
  enable_debug_printer self <> OFF ->
  __enter__ config self g
  = (codegen_intermediate_tensor_value_save config self
       (args_to_print_or_save self) (kernel_name self) true
       (arg_signatures self);;
     if decide (enable_debug_printer self <> SAVE) then
       codegen_intermediate_tensor_value_printer config self
         (args_to_print_or_save self) (kernel_name self) true
         (arg_signatures self)
     else mret tt) (with_kernel_name g (kernel_name self)).
Proof.
  intros Hon. unfold __enter__. rewrite decide_True by done.
  by erewrite bind_return; [|reflexivity].
Qed.

Lemma exit_on config self exc g :
  enable_debug_printer self <> OFF ->
  __exit__ config self exc g
  = (codegen_intermediate_tensor_value_save config self
       (args_to_print_or_save self) (kernel_name self) false
       (arg_signatures self);;
     if decide (enable_debug_printer self <> SAVE) then
       codegen_intermediate_tensor_value_printer config self
         (args_to_print_or_save self) (kernel_name self) false
         (arg_signatures self)
     else mret tt) g.
Proof. intros Hon. unfold __exit__. by rewrite decide_True by done. Qed.

(** X9: with a non-empty filter list, FILTERED_PRINT is DEFAULT_PRINT for a
    kernel whose name is in the list and SAVE for any other kernel:
    scope entry and scope exit give the same graph and the same outcome
    as at that level, on every target and also when they raise. *)
Theorem filtered_print_reduces (config : Config) (self : DebugPrinterManager)
    (exc : option Exception) (g : Graph) :
  enable_debug_printer self = FILTERED_PRINT ->
  filtered_kernel_names_to_print self <> [] ->
  let level :=
    if bool_decide (kernel_name self ∈ filtered_kernel_names_to_print self)
    then DEFAULT_PRINT else SAVE in
  __enter__ config self g = __enter__ config (with_level self level) g
  /\ __exit__ config self exc g = __exit__ config (with_level self level) exc g.
Proof.
  intros Hlevel Hfilter level.
  assert (enable_debug_printer self <> OFF) as Hon by (by rewrite Hlevel).
  assert (enable_debug_printer (with_level self level) <> OFF) as Hon'
    by (unfold level; simpl; by destruct (bool_decide _)).
  rewrite (enter_on config self), (exit_on config self) by done.
  rewrite (enter_on config (with_level self level)),
    (exit_on config (with_level self level)) by done.
  destruct (tags_short self) eqn:Hshort.
  - apply tags_short_true in Hshort as (tags & Hsigs & Hshort).
    rewrite !(phase_uncovered config self _ tags) by done.
    by rewrite !(phase_uncovered config (with_level self level) _ tags) by done.
  - apply tags_short_false in Hshort.
    assert (well_tagged (with_level self level)) as Htags' by done.
    assert (forall g' bl, phase_lines config g' self bl
              = phase_lines config g' (with_level self level) bl) as Heq.
    { intros g' bl. unfold phase_lines, print_suppressed, tensor_typed_args.
      cbn [with_level enable_debug_printer kernel_name arg_signatures
           args_to_print_or_save filtered_kernel_names_to_print].
      rewrite Hlevel. unfold level.
      destruct (decide (kernel_name self ∈ filtered_kernel_names_to_print self))
        as [Hin|Hout].
      - rewrite (bool_decide_eq_true_2 (kernel_name self ∈ _)) by done.
        by rewrite (bool_decide_eq_false_2 (kernel_name self ∉ _))
          by (intros Hnot; by apply Hnot).
      - rewrite (bool_decide_eq_false_2 (kernel_name self ∈ _)) by done.
        by rewrite (bool_decide_eq_true_2 (kernel_name self ∉ _)) by done. }
    assert (enable_debug_printer (with_level self level) = FILTERED_PRINT ->
            filtered_kernel_names_to_print (with_level self level) <> [])
      as Hfilter' by done.
    rewrite !(phase_returns config self) by done.
    rewrite !(phase_returns config (with_level self level)) by done.
    by rewrite !Heq.
Qed.

Lemma filtered_print_reduces_witness :
  let config := configured true (Some "matmul_kernel, add_kernel") in
  let listed := manager_for "3" config ["buf0"] "add_kernel" None in
  let g := fresh_graph false in
  __enter__ config listed g
  = __enter__ config (with_level listed DEFAULT_PRINT) g
  /\ __exit__ config listed None g
     = __exit__ config (with_level listed DEFAULT_PRINT) None g.
Proof.
  apply (filtered_print_reduces
           (configured true (Some "matmul_kernel, add_kernel"))
           (manager_for "3"
              (configured true (Some "matmul_kernel, add_kernel"))
              ["buf0"] "add_kernel" None)
           None (fresh_graph false)).
  - reflexivity.
  - vm_compute. discriminate.
Defined.

(** ** Lines of a whole scope at DEFAULT_PRINT *)

(** X10: at DEFAULT_PRINT level, for every manager with a tag for each
    watched argument, a scope appends its before_launch block and then
    its after_launch block.  On the ABI-compatible C++ wrapper target a
    block is all save lines of the tensor-typed arguments followed by
    all their print lines, four lines per tensor-typed argument for the
    scope; on the Python wrapper target a block is the print statements
    only, two lines per tensor-typed argument; on the C++ wrapper target
    without the ABI flag nothing is appended. *)
Theorem default_print_lines (config : Config) (self : DebugPrinterManager)
    (exc : option Exception) (g : Graph) :
  enable_debug_printer self = DEFAULT_PRINT ->
  well_tagged self ->
  let k := kernel_name self in
  let block prefix :=
    if cpp_wrapper g then
      if abi_compatible config then
        map (fun arg => save_line arg prefix k) (tensor_typed_args self)
        ++ map (fun arg => print_line_cpp arg prefix k) (tensor_typed_args self)
      else []
    else map (fun arg => print_line_python arg prefix k) (tensor_typed_args self) in
  (__enter__ config self;; __exit__ config self exc) g
  = (with_lines (with_kernel_name g k)
       (block "before_launch" ++ block "after_launch"),
     Return tt)
  /\ length (block "before_launch" ++ block "after_launch")
     = (if cpp_wrapper g then if abi_compatible config then 4 else 0 else 2)
       * length (tensor_typed_args self).
Proof.
  intros Hlevel Htags k block.
  assert (enable_debug_printer self <> OFF) as Hon by (by rewrite Hlevel).
  assert (enable_debug_printer self = FILTERED_PRINT ->
          filtered_kernel_names_to_print self <> []) as Hfilter
    by (by rewrite Hlevel).
  assert (forall g' bl, cpp_wrapper g' = cpp_wrapper g ->
            phase_lines config g' self bl = block (launch_prefix bl)) as Hphase.
  { intros g' bl Hcpp. unfold phase_lines, print_suppressed, block.
    rewrite Hlevel. simpl. unfold save_lines, print_lines. rewrite Hcpp.
    by destruct (cpp_wrapper g), (abi_compatible config). }
  split.
  - erewrite bind_return; [|by apply enter_returns].
    rewrite exit_returns by done.
    by rewrite with_lines_app, !Hphase.
  - unfold block. destruct (cpp_wrapper g), (abi_compatible config);
      rewrite ?length_app, ?length_map; simpl; lia.
Qed.

Lemma default_print_lines_witness :
  let config := configured false None in
  let self := manager_for "2" config ["buf0"; "n"; "buf1"] "k0"
                (Some [TensorArg; SizeArg; TensorArg]) in
  let g := fresh_graph false in
  (__enter__ config self;; __exit__ config self None) g
  = (with_lines (with_kernel_name g "k0")
       [print_line_python "buf0" "before_launch" "k0";
        print_line_python "buf1" "before_launch" "k0";
        print_line_python "buf0" "after_launch" "k0";
        print_line_python "buf1" "after_launch" "k0"],
     Return tt)
  /\ 4 = 2 * 2.
Proof.
  apply (default_print_lines (configured false None)
           (manager_for "2" (configured false None) ["buf0"; "n"; "buf1"] "k0"
              (Some [TensorArg; SizeArg; TensorArg]))
           None (fresh_graph false)).
  - reflexivity.
  - unfold well_tagged. simpl. lia.
Defined.

(** ** Lines identify their argument *)

Lemma string_length_app a b :
  String.length (a +:+ b) = String.length a + String.length b.
Proof. induction a as [|c a IH]; simpl; [done|]. by rewrite IH. Qed.

Lemma string_app_same_length a b x y :
  a +:+ x = b +:+ y -> String.length a = String.length b -> a = b.
Proof.
  revert b. induction a as [|c a IH]; intros [|d b] Heq Hlen; simpl in *;
    try done.
  injection Heq as -> Heq. f_equal. apply IH; [done|lia].
Qed.

(** X11: for a fixed phase and kernel name, each of the three line formats
    determines the argument it was generated for: two arguments with the
    same save line, the same C++ print line or the same Python print
    statement are the same argument. *)
Theorem lines_determine_argument (prefix k arg arg' : string) :
  (save_line arg prefix k = save_line arg' prefix k -> arg = arg')
  /\ (print_line_cpp arg prefix k = print_line_cpp arg' prefix k -> arg = arg')
  /\ (print_line_python arg prefix k = print_line_python arg' prefix k ->
      arg = arg').
Proof.
  split; [|split]; intros Heq.
  - assert (String.length arg = String.length arg') as Hlen.
    { apply (f_equal String.length) in Heq. unfold save_line in Heq.
      rewrite !string_length_app in Heq. simpl in Heq. lia. }
    unfold save_line in Heq. apply (inj (String.app _)) in Heq.
    by apply string_app_same_length in Heq.
  - assert (String.length arg = String.length arg') as Hlen.
    { apply (f_equal String.length) in Heq. unfold print_line_cpp in Heq.
      rewrite !string_length_app in Heq. simpl in Heq. lia. }
    unfold print_line_cpp in Heq. apply (inj (String.app _)) in Heq.
    by apply string_app_same_length in Heq.
  - assert (String.length arg = String.length arg') as Hlen.
    { apply (f_equal String.length) in Heq. unfold print_line_python in Heq.
      rewrite !string_length_app in Heq. simpl in Heq. lia. }
    unfold print_line_python in Heq.
    do 5 apply (inj (String.app _)) in Heq.
    by apply string_app_same_length in Heq.
Qed.
